(** * Smart Grid Power Consumption Analyzer

    A shallow embedding of [main.py]: the loader/merger
    ([load_and_merge_data]), the aggregator and risk scorer
    ([analyze_data]) and the part of the visualizer that reads the unified
    table ([visualize_results]).

    Numbers.  Python floats are modelled by exact rationals ([Q]); a missing
    value (pandas' NaN) is [None] in an [option Q] cell.  Every comparison
    with a missing value is false and the reductions skip missing values, as
    pandas does by default ([skipna=True]).  Numeric results are stated up to
    [Qeq] (written [==]).  The boundary cases of the risk score are evaluated
    on binary64 as well ([Binary64]).

    Files.  A metadata file either fails to parse or is a JSON object whose
    fields may be absent; a tabular file is absent, has nothing to parse, or
    is a table with the three columns the generator writes. *)

From Stdlib Require Import List String Ascii ZArith QArith Qround Lia Lqa Bool Arith Sorted.
From Stdlib Require Import Uint63 PrimFloat.
From Stdlib Require Import Decimal DecimalNat DecimalString.
Import ListNotations.

Open Scope string_scope.
Open Scope Q_scope.

(** ** Exceptions and results *)

Inductive exn : Type :=
| FileNotFoundError
| ValueError (msg : string)
| KeyError (column : string)
| IndexError.

Inductive result (A : Type) : Type :=
| Ok (a : A)
| Raise (e : exn).

Arguments Ok {A} a.
Arguments Raise {A} e.

Definition bind {A B : Type} (r : result A) (k : A -> result B) : result B :=
  match r with
  | Ok a => k a
  | Raise e => Raise e
  end.

Notation "x <- r ;; k" := (bind r (fun x => k))
  (at level 61, r at next level, right associativity).

(** ** The operations of pandas and of Python that the program calls *)

Module Pandas.

(** A cell of a float column: [None] is NaN. *)
Definition cell : Type := option Q.

Definition isna (c : cell) : bool :=
  match c with
  | None => true
  | Some _ => false
  end.

(** [Series.sum()]: missing values are skipped, the empty sum is 0. *)
Fixpoint sum (col : list cell) : Q :=
  match col with
  | [] => 0
  | None :: rest => sum rest
  | Some v :: rest => v + sum rest
  end.

(** [Series.count()]: the number of values that are not missing. *)
Fixpoint count (col : list cell) : nat :=
  match col with
  | [] => O
  | None :: rest => count rest
  | Some _ :: rest => S (count rest)
  end.

(** [Series.mean()]: the sum over the count of the values that are not
    missing; NaN when there is none. *)
Definition mean (col : list cell) : cell :=
  match count col with
  | O => None
  | S _ => Some (sum col / inject_Z (Z.of_nat (count col)))
  end.

(** [Series.fillna(value)]: a missing cell takes [value]; filling with NaN
    leaves the column as it is. *)
Definition fillna (value : cell) (c : cell) : cell :=
  match c with
  | Some v => Some v
  | None => value
  end.

Definition Qltb (x y : Q) : bool := negb (Qle_bool y x).

(** [Series.min()] and [Series.max()], missing values skipped. *)
Fixpoint min (col : list cell) : cell :=
  match col with
  | [] => None
  | None :: rest => min rest
  | Some v :: rest =>
      match min rest with
      | None => Some v
      | Some m => Some (if Qle_bool v m then v else m)
      end
  end.

Fixpoint max (col : list cell) : cell :=
  match col with
  | [] => None
  | None :: rest => max rest
  | Some v :: rest =>
      match max rest with
      | None => Some v
      | Some m => Some (if Qle_bool m v then v else m)
      end
  end.

(** [Series.idxmax()] on a series without missing values: the label of the
    first occurrence of the largest value.  [best] is the entry kept so
    far; a later entry replaces it only when it is strictly larger. *)
Fixpoint idxmax_from {L : Type} (best : L * Q) (s : list (L * Q)) : L :=
  match s with
  | [] => fst best
  | (l, v) :: rest =>
      if Qltb (snd best) v then idxmax_from (l, v) rest
      else idxmax_from best rest
  end.

Definition idxmax {L : Type} (s : list (L * Q)) : result L :=
  match s with
  | [] => Raise (ValueError "attempt to get argmax of an empty sequence")
  | first :: rest => Ok (idxmax_from first rest)
  end.

(** The sorted, duplicate-free list of the keys of a [groupby]. *)
Section Keys.
Context {K : Type} (cmp : K -> K -> comparison).

Fixpoint insert_key (k : K) (ks : list K) : list K :=
  match ks with
  | [] => [k]
  | k' :: rest =>
      match cmp k k' with
      | Lt => k :: k' :: rest
      | Eq => k' :: rest
      | Gt => k' :: insert_key k rest
      end
  end.

Definition sorted_keys (ks : list K) : list K :=
  fold_right insert_key [] ks.

Definition key_eqb (a b : K) : bool :=
  match cmp a b with
  | Eq => true
  | _ => false
  end.

(** [groupby(key)]: one group per key value, in ascending key order; a
    group keeps its rows in table order. *)
Definition groupby {A : Type} (key : A -> K) (rows : list A)
  : list (K * list A) :=
  map (fun k => (k, filter (fun r => key_eqb (key r) k) rows))
    (sorted_keys (map key rows)).

(** The rows of a column that a boolean mask keeps. *)
Fixpoint select {A : Type} (mask : list bool) (col : list A) : list A :=
  match mask, col with
  | true :: m, x :: c => x :: select m c
  | false :: m, _ :: c => select m c
  | _, _ => []
  end.
End Keys.

(** Python's [round(x, ndigits)]: to the nearest multiple of
    [10^-ndigits], a tie going to the even one. *)
Definition rint (x : Q) : Z :=
  let f := Qfloor x in
  match Qcompare (x - inject_Z f) (1 # 2) with
  | Lt => f
  | Gt => (f + 1)%Z
  | Eq => if Z.even f then f else (f + 1)%Z
  end.

Definition round (x : Q) (ndigits : nat) : Q :=
  let p := inject_Z (10 ^ Z.of_nat ndigits) in
  inject_Z (rint (x * p)) / p.

End Pandas.

(** ** Data model *)

(** A row of a tabular reading file, as [pd.read_csv] returns it. *)
Record Reading : Type := {
  csv_household_id : string;
  csv_timestamp : string;
  csv_consumption_kwh : Pandas.cell
}.

(** An entry of the [districts] list of a metadata file; a field the JSON
    object does not have is [None]. *)
Record DistrictMeta : Type := {
  meta_district_id : option string;
  meta_threshold : option Q
}.

(** The JSON object of a metadata file. *)
Record CityMeta : Type := {
  meta_city : option string;
  meta_date : option string;
  meta_districts : option (list DistrictMeta);
  meta_critical_hours : option (list string)
}.

(** What [json.load] makes of a file of the metadata directory. *)
Inductive json_file : Type :=
| JSONDecodeError
| Parsed (city_meta : CityMeta).

(** What [pd.read_csv] makes of an existing file of the tabular directory. *)
Inductive csv_file : Type :=
| EmptyDataError
| Table (df : list Reading).

(** The two directories under [data_dir].  [json_dir] is the listing of the
    metadata directory ([None] when the directory does not exist);
    [csv_dir] maps the name of a tabular file to what reading it gives
    ([None] when [os.path.exists] is false). *)
Record FileSystem : Type := {
  json_dir : option (list (string * json_file));
  csv_dir : string -> option csv_file
}.

(** A row of the unified table. *)
Record UnifiedRow : Type := {
  household_id : string;
  timestamp : string;
  consumption_kwh : Pandas.cell;
  city : string;
  district_id : string;
  threshold : Q;
  critical_hours : list string
}.

(** The unified table.  The columns [hour] and [violation] exist only once
    [analyze_data] has assigned them. *)
Record DataFrame : Type := {
  rows : list UnifiedRow;
  hour : option (list nat);
  violation : option (list bool)
}.

(** The lines the loader prints when it skips a file. *)
Inductive warning : Type :=
| SkippingCorruptedJSON (json_file : string)
| MissingCSV (csv_filename : string)
| EmptyCSVSkipped (csv_filename : string).

(** ** 2. Data loading *)

(** [d.get(key, default)] on a field that may be absent. *)
Definition get {A : Type} (field : option A) (default : A) : A :=
  match field with
  | Some v => v
  | None => default
  end.

Definition csv_filename (city district_id date : string) : string :=
  "district_" ++ city ++ "_" ++ district_id ++ "_" ++ date ++ ".csv".

Definition set_consumption (r : Reading) (c : Pandas.cell) : Reading :=
  {| csv_household_id := csv_household_id r;
     csv_timestamp := csv_timestamp r;
     csv_consumption_kwh := c |}.

(** Lines 133-135: when the column has a missing value, fill the column
    with its mean.  The [fillna] with [inplace=True] on [df["consumption_kwh"]]
    is taken to fill the column of [df] itself, as the program expects. *)
Definition impute (df : list Reading) : list Reading :=
  let column := map csv_consumption_kwh df in
  if (0 <? List.length (filter Pandas.isna column))%nat then
    let mean_value := Pandas.mean column in
    map (fun r => set_consumption r (Pandas.fillna mean_value (csv_consumption_kwh r))) df
  else df.

(** Lines 138-141: the metadata columns, the same value on every row. *)
Definition add_metadata (city district_id : string) (threshold : Q)
    (critical_hours : list string) (r : Reading) : UnifiedRow :=
  {| household_id := csv_household_id r;
     timestamp := csv_timestamp r;
     consumption_kwh := csv_consumption_kwh r;
     city := city;
     district_id := district_id;
     threshold := threshold;
     critical_hours := critical_hours |}.

(** The state the two loops of the loader update: what was printed and the
    list [all_data] of the tables merged so far. *)
Record LoadState : Type := {
  log : list warning;
  all_data : list (list UnifiedRow)
}.

Definition print (w : warning) (st : LoadState) : LoadState :=
  {| log := log st ++ [w]; all_data := all_data st |}.

Definition append (df : list UnifiedRow) (st : LoadState) : LoadState :=
  {| log := log st; all_data := all_data st ++ [df] |}.

(** The body of the inner loop, lines 117-142. *)
Definition load_district (fs : FileSystem) (city date : string)
    (critical_hours : list string) (st : LoadState) (district : DistrictMeta)
    : LoadState :=
  let district_id := get (meta_district_id district) "Unknown" in
  let threshold := get (meta_threshold district) 1.5 in
  let name := csv_filename city district_id date in
  match csv_dir fs name with
  | None => print (MissingCSV name) st
  | Some EmptyDataError => print (EmptyCSVSkipped name) st
  | Some (Table df) =>
      append (map (add_metadata city district_id threshold critical_hours) (impute df)) st
  end.

(** The body of the outer loop, lines 104-142. *)
Definition load_json (fs : FileSystem) (st : LoadState)
    (entry : string * json_file) : LoadState :=
  match snd entry with
  | JSONDecodeError => print (SkippingCorruptedJSON (fst entry)) st
  | Parsed city_meta =>
      let city := get (meta_city city_meta) "UnknownCity" in
      let date := get (meta_date city_meta) "UnknownDate" in
      let critical_hours := get (meta_critical_hours city_meta) [] in
      fold_left (load_district fs city date critical_hours)
        (get (meta_districts city_meta) []) st
  end.

Definition no_data : exn :=
  ValueError "No data found. Please run data generation first.".

(** [load_and_merge_data]: what was printed, and the unified table or the
    exception raised. *)
Definition load_and_merge_data (fs : FileSystem)
    : list warning * result DataFrame :=
  match json_dir fs with
  | None => ([], Raise FileNotFoundError)
  | Some files =>
      let st := fold_left (load_json fs) files {| log := []; all_data := [] |} in
      match all_data st with
      | [] => (log st, Raise no_data)
      | _ :: _ =>
          (log st,
           Ok {| rows := List.concat (all_data st); hour := None; violation := None |})
      end
  end.

(** ** 3. Data analysis *)

(** A row of [results_df]. *)
Record Summary : Type := {
  res_city : string;
  res_district_id : string;
  res_date : string;
  avg_consumption : Pandas.cell;
  min_consumption : Pandas.cell;
  max_consumption : Pandas.cell;
  peak_hour : string;
  violations : nat;
  violation_ratio : Q;
  risk_score : Q;
  risk_level : string
}.

Fixpoint for_each {A B : Type} (body : A -> result B) (l : list A)
    : result (list B) :=
  match l with
  | [] => Ok []
  | a :: rest =>
      b <- body a ;;
      bs <- for_each body rest ;;
      Ok (b :: bs)
  end.

(** The hour of a timestamp ["YYYY-MM-DD HH:00"], the format the generator
    writes (line 67); [pd.to_datetime] raises on a string it cannot read. *)
Definition digit (c : ascii) : option nat :=
  let n := nat_of_ascii c in
  if ((48 <=? n) && (n <=? 57))%nat then Some (n - 48)%nat else None.

Definition hour_of (ts : string) : result nat :=
  match String.get 11 ts, String.get 12 ts with
  | Some a, Some b =>
      match digit a, digit b with
      | Some x, Some y =>
          if (10 * x + y <? 24)%nat then Ok (10 * x + y)%nat
          else Raise (ValueError "hour must be in 0..23")
      | _, _ => Raise (ValueError "Unknown datetime string format")
      end
  | _, _ => Raise (ValueError "Unknown datetime string format")
  end.

(** [f"{n:02d}"] for a number below 100. *)
Definition format_02d (n : nat) : string :=
  String (ascii_of_nat (48 + n / 10)) (String (ascii_of_nat (48 + n mod 10)) "").

(** [a > b] on a float column against a float column: false on NaN. *)
Definition gt (a : Pandas.cell) (b : Q) : bool :=
  match a with
  | Some v => Pandas.Qltb b v
  | None => false
  end.

(** The grouping key [(city, district_id, timestamp[:10])] and its order. *)
Definition GroupKey : Type := string * string * string.

Definition group_key (r : UnifiedRow) : GroupKey :=
  (city r, district_id r, substring 0 10 (timestamp r)).

Definition key_compare (a b : GroupKey) : comparison :=
  let '(a1, a2, a3) := a in
  let '(b1, b2, b3) := b in
  match String.compare a1 b1 with
  | Eq =>
      match String.compare a2 b2 with
      | Eq => String.compare a3 b3
      | c => c
      end
  | c => c
  end.

(** The rows of a table that a mask keeps, with every column it has. *)
Definition take (mask : list bool) (df : DataFrame) : DataFrame :=
  {| rows := Pandas.select mask (rows df);
     hour := option_map (Pandas.select mask) (hour df);
     violation := option_map (Pandas.select mask) (violation df) |}.

(** [df.groupby(["city", "district_id", df["timestamp"].str[:10]])]: the
    groups are tables with the columns of [df]. *)
Definition groupby_key (df : DataFrame) : list (GroupKey * DataFrame) :=
  map (fun k =>
         (k, take (map (fun r => Pandas.key_eqb key_compare (group_key r) k) (rows df)) df))
    (Pandas.sorted_keys key_compare (map group_key (rows df))).

Definition column_hour (df : DataFrame) : result (list nat) :=
  match hour df with
  | Some hs => Ok hs
  | None => Raise (KeyError "hour")
  end.

Definition column_violation (df : DataFrame) : result (list bool) :=
  match violation df with
  | Some vs => Ok vs
  | None => Raise (KeyError "violation")
  end.

(** [group.groupby("hour")["consumption_kwh"].sum()]: the hours of the
    group in ascending order, each with the sum of its rows. *)
Definition hourly_sum (group : DataFrame) : result (list (nat * Q)) :=
  hours <- column_hour group ;;
  Ok (map (fun '(h, rs) => (h, Pandas.sum (map snd rs)))
        (Pandas.groupby Nat.compare fst
           (combine hours (map consumption_kwh (rows group))))).

(** Lines 188-192. *)
Definition compute_risk_score (violation_ratio : Q) (peak_hour_risk : Z) : Q :=
  if Qle_bool 0.25 violation_ratio || (peak_hour_risk =? 1)%Z then
    Pandas.round (0.6 * violation_ratio + 0.4 * inject_Z peak_hour_risk) 2
  else 0.

(** Lines 194-202. *)
Definition assign_risk_level (risk_score : Q) : string :=
  if Qeq_bool risk_score 0 then "NO RISK"
  else if Qle_bool risk_score 0.30 then "LOW"
  else if Qle_bool risk_score 0.60 then "MEDIUM"
  else "HIGH".

(** Line 181. *)
Definition peak_hour_risk_of (peak_hour_str : string) (critical_hours : list string) : Z :=
  if existsb (String.eqb peak_hour_str) critical_hours then 1%Z else 0%Z.

Definition iloc0 {A : Type} (col : list A) : result A :=
  match col with
  | x :: _ => Ok x
  | [] => Raise IndexError
  end.

(** The body of the loop over the groups, lines 171-206. *)
Definition summarize (entry : GroupKey * DataFrame) : result Summary :=
  let '((city, district_id, date), group) := entry in
  let consumption := map consumption_kwh (rows group) in
  let avg_cons := Pandas.mean consumption in
  let min_cons := Pandas.min consumption in
  let max_cons := Pandas.max consumption in
  sums <- hourly_sum group ;;
  peak_hour <- Pandas.idxmax sums ;;
  let peak_hour_str := format_02d peak_hour ++ ":00" in
  critical_hours <- iloc0 (map critical_hours (rows group)) ;;
  let peak_hour_risk := peak_hour_risk_of peak_hour_str critical_hours in
  violation <- column_violation group ;;
  let violations := List.length (filter (fun b => b) violation) in
  let total := List.length (rows group) in
  let violation_ratio := inject_Z (Z.of_nat violations) / inject_Z (Z.of_nat total) in
  let risk_score := compute_risk_score violation_ratio peak_hour_risk in
  let risk_level := assign_risk_level risk_score in
  Ok {| res_city := city;
        res_district_id := district_id;
        res_date := date;
        avg_consumption := avg_cons;
        min_consumption := min_cons;
        max_consumption := max_cons;
        peak_hour := peak_hour_str;
        violations := violations;
        violation_ratio := violation_ratio;
        risk_score := risk_score;
        risk_level := risk_level |}.

(** Lines 167-168: the two derived columns, assigned on the table that was
    passed in. *)
Definition assign_hour (df : DataFrame) : result DataFrame :=
  hours <- for_each hour_of (map timestamp (rows df)) ;;
  Ok {| rows := rows df; hour := Some hours; violation := violation df |}.

Definition assign_violation (df : DataFrame) : DataFrame :=
  {| rows := rows df;
     hour := hour df;
     violation := Some (map (fun r => gt (consumption_kwh r) (threshold r)) (rows df)) |}.

(** [analyze_data]: the table as the call leaves it, and [results_df].  The
    summary and report files written along the way are left out. *)
Definition analyze_data (df : DataFrame) : result (DataFrame * list Summary) :=
  df <- assign_hour df ;;
  let df := assign_violation df in
  results <- for_each summarize (groupby_key df) ;;
  Ok (df, results).

(** ** 4. Visualization *)

(** The bars of a city's chart: the districts per risk level, in the fixed
    order of the levels, 0 for a level that does not occur. *)
Definition risk_level_counts (group : list Summary) : list (string * nat) :=
  map (fun level =>
         (level, List.length (filter (fun s => String.eqb (risk_level s) level) group)))
    ["NO RISK"; "LOW"; "MEDIUM"; "HIGH"].

(** The line of a district's chart and the hour it marks, lines 274-277. *)
Definition trend (entry : GroupKey * DataFrame)
    : result (GroupKey * list (nat * Q) * nat) :=
  let '(key, group) := entry in
  sums <- hourly_sum group ;;
  peak_hour <- Pandas.idxmax sums ;;
  Ok (key, sums, peak_hour).

(** [visualize_results]: what the charts show; the image files themselves
    are left out. *)
Definition Charts : Type :=
  (list (string * list (string * nat)) * list (GroupKey * list (nat * Q) * nat))%type.

Definition visualize_results (results_df : list Summary) (df : DataFrame)
    : result Charts :=
  let bars :=
    map (fun '(city, group) => (city, risk_level_counts group))
      (Pandas.groupby String.compare res_city results_df) in
  trends <- for_each trend (groupby_key df) ;;
  Ok (bars, trends).

(** ** Main driver *)

(** Steps 2 to 4 of the driver on the directories the generator has
    written.  [data] is one table: the call of [analyze_data] assigns its
    derived columns, and [visualize_results] is given the table as that call
    left it. *)
Definition main (fs : FileSystem) : list warning * result (list Summary * Charts) :=
  let (printed, data) := load_and_merge_data fs in
  (printed,
   data <- data ;;
   analyzed <- analyze_data data ;;
   let (data, summary) := analyzed in
   charts <- visualize_results summary data ;;
   Ok (summary, charts)).

(** ** Notions used to state the properties *)

(** A table whose derived columns exist and have one entry per row. *)
Definition aligned (df : DataFrame) : Prop :=
  exists hs vs,
    hour df = Some hs /\ violation df = Some vs /\
    List.length hs = List.length (rows df) /\
    List.length vs = List.length (rows df).


(** The state of the loader before its first file, and one run of the
    loader after another. *)
Definition nothing_loaded : LoadState := {| log := []; all_data := [] |}.

Definition and_then (st1 st2 : LoadState) : LoadState :=
  {| log := log st1 ++ log st2; all_data := all_data st1 ++ all_data st2 |}.

(** The name of the tabular file a district entry of a metadata file
    refers to. *)
Definition expected_csv (m : CityMeta) (d : DistrictMeta) : string :=
  csv_filename (get (meta_city m) "UnknownCity")
    (get (meta_district_id d) "Unknown")
    (get (meta_date m) "UnknownDate").


(** The values of a table that are not missing, their arithmetic mean, and
    a row with its missing value replaced. *)
Definition non_missing (df : list Reading) : list Q :=
  flat_map (fun r => match csv_consumption_kwh r with
                     | Some v => [v]
                     | None => []
                     end) df.

Definition arithmetic_mean (values : list Q) : Q :=
  fold_right Qplus 0 values / inject_Z (Z.of_nat (List.length values)).

Definition fill_missing (m : Q) (r : Reading) : Reading :=
  match csv_consumption_kwh r with
  | Some _ => r
  | None => set_consumption r (Some m)
  end.

(** ** Sample tables and directories *)

Definition sample_row (hour : nat) (consumption : Pandas.cell) (district : string)
    : UnifiedRow :=
  {| household_id := "H001";
     timestamp := "2025-09-10 " ++ format_02d hour ++ ":00";
     consumption_kwh := consumption;
     city := "City1";
     district_id := district;
     threshold := 1.5;
     critical_hours := ["18:00"; "19:00"; "20:00"; "21:00"] |}.

Definition loaded (rs : list UnifiedRow) : DataFrame :=
  {| rows := rs; hour := None; violation := None |}.

(** One group of four rows with one violation and its peak at hour 0. *)
Definition quarter_table : DataFrame :=
  loaded [ sample_row 0 (Some 2.0) "101"; sample_row 3 (Some 1.0) "101";
           sample_row 7 (Some 0.5) "101"; sample_row 7 (Some 0.4) "101" ].

Definition quarter_analyzed : DataFrame :=
  Eval vm_compute in
    match analyze_data quarter_table with
    | Ok (df, _) => df
    | Raise _ => quarter_table
    end.

Definition quarter_results : list Summary :=
  Eval vm_compute in
    match analyze_data quarter_table with
    | Ok (_, results) => results
    | Raise _ => []
    end.

(** District 101: 24 hourly rows, the 8 rows of hours 14 to 21 above the
    threshold, the largest at hour 18.  District 102: a single row below
    the threshold at hour 5. *)
Definition day_table : DataFrame :=
  loaded
    (map (fun h =>
            sample_row h
              (Some (if (h =? 18)%nat then 2.5
                     else if ((14 <=? h) && (h <=? 21))%nat then 2.0
                     else 1.0))
              "101")
       (seq 0 24)
     ++ [ sample_row 5 (Some 1.0) "102" ]).

Definition day_analyzed : DataFrame :=
  Eval vm_compute in
    match analyze_data day_table with
    | Ok (df, _) => df
    | Raise _ => day_table
    end.

Definition day_results : list Summary :=
  Eval vm_compute in
    match analyze_data day_table with
    | Ok (_, results) => results
    | Raise _ => []
    end.

(** A reading equal to the threshold, one above it, a missing one and one
    below it. *)
Definition threshold_table : DataFrame :=
  loaded [ sample_row 0 (Some 1.5) "101"; sample_row 1 (Some 1.51) "101";
           sample_row 2 None "101"; sample_row 3 (Some 1.0) "101" ].

Definition threshold_analyzed : DataFrame :=
  Eval vm_compute in
    match analyze_data threshold_table with
    | Ok (df, _) => df
    | Raise _ => threshold_table
    end.

Definition threshold_results : list Summary :=
  Eval vm_compute in
    match analyze_data threshold_table with
    | Ok (_, results) => results
    | Raise _ => []
    end.

(** One group whose hourly sums are {0: 5.0, 3: 5.0, 7: 2.0}; the rows of
    hour 3 come first in the table. *)
Definition tie_table : DataFrame :=
  loaded [ sample_row 3 (Some 2.5) "101"; sample_row 7 (Some 2.0) "101";
           sample_row 0 (Some 5.0) "101"; sample_row 3 (Some 2.5) "101" ].

Definition tie_analyzed : DataFrame :=
  Eval vm_compute in
    match analyze_data tie_table with
    | Ok (df, _) => df
    | Raise _ => tie_table
    end.

Definition tie_results : list Summary :=
  Eval vm_compute in
    match analyze_data tie_table with
    | Ok (_, results) => results
    | Raise _ => []
    end.

(** A metadata directory with one file that parses and one that does not;
    of the three districts of the first, one has a table, one has no
    tabular file and one has a tabular file with nothing to parse. *)
Definition sample_reading (hour : nat) (consumption : Pandas.cell) : Reading :=
  {| csv_household_id := "H001";
     csv_timestamp := "2025-09-10 " ++ format_02d hour ++ ":00";
     csv_consumption_kwh := consumption |}.

Definition sample_meta : CityMeta :=
  {| meta_city := Some "City1";
     meta_date := Some "2025-09-10";
     meta_districts :=
       Some [ {| meta_district_id := Some "101"; meta_threshold := Some 1.2 |};
              {| meta_district_id := Some "102"; meta_threshold := Some 1.3 |};
              {| meta_district_id := Some "103"; meta_threshold := Some 1.4 |} ];
     meta_critical_hours := Some ["18:00"; "19:00"; "20:00"; "21:00"] |}.

Definition sample_fs : FileSystem :=
  {| json_dir := Some [ ("city_City0_2025-09-10.json", JSONDecodeError);
                        ("city_City1_2025-09-10.json", Parsed sample_meta) ];
     csv_dir := fun name =>
       if String.eqb name "district_City1_101_2025-09-10.csv" then
         Some (Table [ sample_reading 0 (Some 1.0); sample_reading 1 None;
                       sample_reading 2 (Some 3.0) ])
       else if String.eqb name "district_City1_103_2025-09-10.csv" then
         Some EmptyDataError
       else None |}.

(** Directories in which nothing merges: no metadata directory, an empty
    one, and one whose only file does not parse. *)
Definition no_json_dir : FileSystem :=
  {| json_dir := None; csv_dir := fun _ => None |}.

Definition empty_dirs : FileSystem :=
  {| json_dir := Some []; csv_dir := fun _ => None |}.

Definition only_corrupted : FileSystem :=
  {| json_dir := Some [("city_City1_2025-09-10.json", JSONDecodeError)];
     csv_dir := fun _ => None |}.

(** The table [1.0, missing, 3.0]. *)
Definition gap_table : list Reading :=
  [ sample_reading 0 (Some 1.0); sample_reading 1 None; sample_reading 2 (Some 3.0) ].


(** A metadata file with no field but its districts, whose only district
    entry has no threshold, and the tabular file its defaults lead to. *)
Definition bare_meta : CityMeta :=
  {| meta_city := None;
     meta_date := None;
     meta_districts := Some [ {| meta_district_id := Some "101"; meta_threshold := None |} ];
     meta_critical_hours := None |}.

Definition bare_fs : FileSystem :=
  {| json_dir := Some [("city.json", Parsed bare_meta)];
     csv_dir := fun name =>
       if String.eqb name "district_UnknownCity_101_UnknownDate.csv" then
         Some (Table [ sample_reading 0 (Some 1.0) ])
       else None |}.

Definition sample_loaded : DataFrame :=
  Eval vm_compute in
    match snd (load_and_merge_data sample_fs) with
    | Ok df => df
    | Raise _ => loaded []
    end.

Definition bare_loaded : DataFrame :=
  Eval vm_compute in
    match snd (load_and_merge_data bare_fs) with
    | Ok df => df
    | Raise _ => loaded []
    end.

(** A table without rows, as [load_and_merge_data] returns it when the only
    tabular file has a header line and nothing else. *)
Definition header_only_fs : FileSystem :=
  {| json_dir := Some [("city_City1_2025-09-10.json", Parsed sample_meta)];
     csv_dir := fun name =>
       if String.eqb name "district_City1_101_2025-09-10.csv" then Some (Table [])
       else None |}.

(** ** The scoring lines on binary64

    The same lines 186-202 on IEEE 754 doubles, to evaluate the boundary
    cases as the interpreter does.  [round] is the rounding of a NumPy
    double to two decimals: scale by 100, round to the nearest integer (a
    tie to the even one), scale back. *)

Module Binary64.

#[local] Set Warnings "-inexact-float".
#[local] Open Scope float_scope.

(** The nearest integer of a double in [0, 2^51], a tie to the even one. *)
Definition rint (x : float) : float :=
  (x + 4503599627370496) - 4503599627370496.

Definition round2 (x : float) : float := rint (x * 100) / 100.

Definition violation_ratio (violations total : Z) : float :=
  PrimFloat.of_uint63 (Uint63.of_Z violations) / PrimFloat.of_uint63 (Uint63.of_Z total).

Definition compute_risk_score (violation_ratio : float) (peak_hour_risk : Z) : float :=
  if (0.25 <=? violation_ratio) || (peak_hour_risk =? 1)%Z then
    round2 (0.6 * violation_ratio + 0.4 * PrimFloat.of_uint63 (Uint63.of_Z peak_hour_risk))
  else 0.

Definition assign_risk_level (risk_score : float) : string :=
  if risk_score =? 0 then "NO RISK"
  else if risk_score <=? 0.30 then "LOW"
  else if risk_score <=? 0.60 then "MEDIUM"
  else "HIGH".

Definition score_and_level (violations total peak_hour_risk : Z) : float * string :=
  let risk_score := compute_risk_score (violation_ratio violations total) peak_hour_risk in
  (risk_score, assign_risk_level risk_score).

Definition expected_quarter : float * string := (0.15, "LOW").
Definition expected_day : float * string := (0.6, "MEDIUM").

End Binary64.

(** A table as [analyze_data] leaves it: the hour column holds the hours of
    the timestamps and the violation column the comparison of each row. *)
Definition is_violation (r : UnifiedRow) : bool :=
  gt (consumption_kwh r) (threshold r).

Definition analyzed (df : DataFrame) : Prop :=
  exists hs,
    for_each hour_of (map timestamp (rows df)) = Ok hs /\
    hour df = Some hs /\
    violation df = Some (map is_violation (rows df)).

(** The key columns of a summary, and the order of the grouping keys. *)
Definition summary_key (s : Summary) : GroupKey :=
  (res_city s, res_district_id s, res_date s).

Definition key_lt (a b : GroupKey) : Prop := key_compare a b = Lt.

(** The consumption column of a tabular file. *)
Definition consumption_column (df : list Reading) : list Pandas.cell :=
  map csv_consumption_kwh df.

(** The readings a metadata file brings into the unified table, as their
    household and timestamp: those of the tabular files of its district
    entries, in the order of the entries. *)
Definition readings_of_file (fs : FileSystem) (entry : string * json_file)
    : list (string * string) :=
  match snd entry with
  | JSONDecodeError => []
  | Parsed m =>
      flat_map
        (fun d =>
           match csv_dir fs (expected_csv m d) with
           | Some (Table t) => map (fun r => (csv_household_id r, csv_timestamp r)) t
           | _ => []
           end)
        (get (meta_districts m) [])
  end.

(** The labels of the bars of a risk level chart. *)
Definition risk_levels : list string := ["NO RISK"; "LOW"; "MEDIUM"; "HIGH"].

(** ** The files [analyze_data] writes

    Lines 208-244.  The entries of [city_reports] are made from the values
    the loop has just put into the row of [results] (lines 205-214), so they
    are given here from that row.  [format_1f] stands for the formatting of
    a float with one decimal, [f"{x:.1f}"]. *)

Record Alert : Type := {
  alert_district_id : string;
  avg_percent_of_violations : string;
  alert_risk_score : Q;
  alert_risk_level : string
}.

Record Report : Type := {
  report_city : string;
  report_date : string;
  total_districts : nat;
  high_risk_districts : nat;
  medium_risk_districts : nat;
  low_risk_districts : nat;
  critical_alerts : list Alert
}.

(** A dict with keys [(city, date)], in insertion order. *)
Definition CityReports : Type := list ((string * string) * list Alert).

Definition same_key (a b : string * string) : bool :=
  String.eqb (fst a) (fst b) && String.eqb (snd a) (snd b).

(** [d.setdefault(key, []).append(alert)]. *)
Fixpoint setdefault_append (key : string * string) (alert : Alert) (d : CityReports)
    : CityReports :=
  match d with
  | [] => [(key, [alert])]
  | (k, alerts) :: rest =>
      if same_key k key then (k, (alerts ++ [alert])%list) :: rest
      else (k, alerts) :: setdefault_append key alert rest
  end.

Section Reports.
Variable format_1f : Q -> string.

Definition alert_of (s : Summary) : Alert :=
  {| alert_district_id := res_district_id s;
     avg_percent_of_violations := format_1f (violation_ratio s * 100) ++ "%";
     alert_risk_score := risk_score s;
     alert_risk_level := risk_level s |}.

Definition city_reports (results : list Summary) : CityReports :=
  fold_left (fun d s => setdefault_append (res_city s, res_date s) (alert_of s) d)
    results [].

Definition count_level (level : string) (districts : list Alert) : nat :=
  List.length (filter (fun d => String.eqb (alert_risk_level d) level) districts).

(** Lines 226-244: the name and the content of the report of a city and a
    date. *)
Definition report_file (entry : (string * string) * list Alert) : string * Report :=
  let '((city, date), districts) := entry in
  (city ++ "_" ++ date ++ "_report.json",
   {| report_city := city;
      report_date := date;
      total_districts := List.length districts;
      high_risk_districts := count_level "HIGH" districts;
      medium_risk_districts := count_level "MEDIUM" districts;
      low_risk_districts := count_level "LOW" districts;
      critical_alerts := filter (fun d => Pandas.Qltb 0 (alert_risk_score d)) districts |}).

(** Lines 222-223: the name and the rows of the summary file of a city. *)
Definition summary_file (entry : string * list Summary) : string * list Summary :=
  let '(city, city_group) := entry in (city ++ "_summary.csv", city_group).

(** The files of [summary_csv] and of [reports_json], in the order they are
    written. *)
Definition summary_files (results : list Summary) : list (string * list Summary) :=
  map summary_file (Pandas.groupby String.compare res_city results).

Definition report_files (results : list Summary) : list (string * Report) :=
  map report_file (city_reports results).

End Reports.

(** [f"{x:.1f}"] for a number that is not negative, on exact rationals. *)
Definition decimal (n : nat) : string := NilEmpty.string_of_uint (Nat.to_uint n).

Definition format_1f_exact (x : Q) : string :=
  let tenths := Z.to_nat (Pandas.rint (x * 10)) in
  decimal (tenths / 10) ++ "." ++ decimal (tenths mod 10).

(** The alerts a dict holds for a key, and the (city, date) of a summary. *)
Fixpoint alerts_of_key (k : string * string) (d : CityReports) : list Alert :=
  match d with
  | [] => []
  | (k', alerts) :: rest => if same_key k' k then alerts else alerts_of_key k rest
  end.

Definition report_key (s : Summary) : string * string := (res_city s, res_date s).

(** The summaries of a city and a date. *)
Definition summaries_of (k : string * string) (results : list Summary) : list Summary :=
  filter (fun s => same_key (report_key s) k) results.

(** * Properties *)

(** ** Rounding *)

Lemma rint_floor (x : Q) :
  (Qfloor x <= Pandas.rint x <= Qfloor x + 1)%Z.
Proof.
  unfold Pandas.rint.
  destruct (Qcompare (x - inject_Z (Qfloor x)) (1 # 2)); try lia.
  destruct (Z.even (Qfloor x)); lia.
Qed.


Lemma rint_monotone (x y : Q) : x <= y -> (Pandas.rint x <= Pandas.rint y)%Z.
Proof.
  intros H.
  pose proof (Qfloor_resp_le x y H) as Hf.
  destruct (Z.eq_dec (Qfloor x) (Qfloor y)) as [E | N].
  - unfold Pandas.rint. rewrite <- E.
    destruct (Qcompare_spec (x - inject_Z (Qfloor x)) (1 # 2)) as [Hx | Hx | Hx];
      destruct (Qcompare_spec (y - inject_Z (Qfloor x)) (1 # 2)) as [Hy | Hy | Hy];
      try (destruct (Z.even (Qfloor x))); try lia; lra.
  - pose proof (rint_floor x). pose proof (rint_floor y). lia.
Qed.

Lemma pow10_pos (n : nat) : 0 < inject_Z (10 ^ Z.of_nat n).
Proof.
  change 0 with (inject_Z 0). rewrite <- Zlt_Qlt.
  apply Z.pow_pos_nonneg; lia.
Qed.


Lemma round_monotone (x y : Q) (n : nat) :
  x <= y -> Pandas.round x n <= Pandas.round y n.
Proof.
  intros H. unfold Pandas.round.
  pose proof (pow10_pos n) as Hp.
  set (p := inject_Z (10 ^ Z.of_nat n)) in *.
  assert (Hr : (Pandas.rint (x * p) <= Pandas.rint (y * p))%Z).
  { apply rint_monotone. apply Qmult_le_compat_r; lra. }
  rewrite Zle_Qle in Hr.
  unfold Qdiv. apply Qmult_le_compat_r; [exact Hr |].
  apply Qlt_le_weak, Qinv_lt_0_compat, Hp.
Qed.

(** ** The risk score and the risk level *)

Lemma Qle_bool_false (x y : Q) : Qle_bool x y = false <-> y < x.
Proof.
  split; intros H.
  - apply Qnot_le_lt. intros C. apply Qle_bool_iff in C. congruence.
  - destruct (Qle_bool x y) eqn:E; [| reflexivity].
    apply Qle_bool_iff in E. lra.
Qed.

Lemma Qeq_bool_false (x y : Q) : Qeq_bool x y = false <-> ~ x == y.
Proof.
  split; intros H.
  - apply Qeq_bool_neq, H.
  - destruct (Qeq_bool x y) eqn:E; [| reflexivity].
    apply Qeq_bool_iff in E. contradiction.
Qed.

Lemma Qltb_true (x y : Q) : Pandas.Qltb x y = true <-> x < y.
Proof.
  unfold Pandas.Qltb. rewrite negb_true_iff. apply Qle_bool_false.
Qed.

Lemma Qltb_false (x y : Q) : Pandas.Qltb x y = false <-> y <= x.
Proof.
  unfold Pandas.Qltb. rewrite negb_false_iff. apply Qle_bool_iff.
Qed.

Lemma round_zero : Pandas.round 0 2 == 0.
Proof. reflexivity. Qed.

Lemma compute_risk_score_nonneg (r : Q) (p : Z) :
  0 <= r -> (0 <= p)%Z -> 0 <= compute_risk_score r p.
Proof.
  intros Hr Hp. unfold compute_risk_score.
  destruct (Qle_bool 0.25 r || (p =? 1)%Z); [| lra].
  rewrite <- round_zero. apply round_monotone.
  rewrite Zle_Qle in Hp. change (inject_Z 0) with 0 in Hp. nra.
Qed.

Lemma assign_risk_level_spec (score : Q) :
  (score == 0 -> assign_risk_level score = "NO RISK") /\
  (0 < score -> score <= 0.30 -> assign_risk_level score = "LOW") /\
  (0.30 < score -> score <= 0.60 -> assign_risk_level score = "MEDIUM") /\
  (0.60 < score -> assign_risk_level score = "HIGH") /\
  (assign_risk_level score = "NO RISK" -> score == 0).
Proof.
  unfold assign_risk_level.
  destruct (Qeq_bool score 0) eqn:E0;
    [apply Qeq_bool_iff in E0 | apply Qeq_bool_false in E0];
  (destruct (Qle_bool score 0.30) eqn:E1;
    [apply Qle_bool_iff in E1 | apply Qle_bool_false in E1]);
  (destruct (Qle_bool score 0.60) eqn:E2;
    [apply Qle_bool_iff in E2 | apply Qle_bool_false in E2]);
  repeat split; intros; try reflexivity; try discriminate; try lra;
  exfalso; auto.
Qed.

(** ** Keys and groups *)

Section KeyFacts.
Context {K : Type} (cmp : K -> K -> comparison).

Lemma insert_key_incl (k : K) (ks : list K) (x : K) :
  In x (Pandas.insert_key cmp k ks) -> x = k \/ In x ks.
Proof.
  induction ks as [| k' rest IH]; simpl.
  - intros [H | []]; auto.
  - destruct (cmp k k'); simpl; intros H.
    + auto.
    + destruct H as [H | H]; auto.
    + destruct H as [H | H]; auto.
      destruct (IH H); auto.
Qed.

Lemma sorted_keys_incl (ks : list K) (x : K) :
  In x (Pandas.sorted_keys cmp ks) -> In x ks.
Proof.
  induction ks as [| k rest IH]; simpl; [auto |].
  intros H. apply insert_key_incl in H. destruct H; auto.
Qed.

Lemma insert_key_not_nil (k : K) (ks : list K) :
  Pandas.insert_key cmp k ks <> [].
Proof.
  destruct ks as [| k' rest]; simpl; [discriminate |].
  destruct (cmp k k'); discriminate.
Qed.

Lemma sorted_keys_not_nil (k : K) (ks : list K) :
  Pandas.sorted_keys cmp (k :: ks) <> [].
Proof. simpl. apply insert_key_not_nil. Qed.
End KeyFacts.

Lemma string_compare_refl (s : string) : String.compare s s = Eq.
Proof.
  pose proof (String.compare_antisym s s) as H.
  destruct (String.compare s s); simpl in H; congruence.
Qed.

Lemma key_compare_refl (k : GroupKey) : key_compare k k = Eq.
Proof.
  destruct k as [[a b] c]. simpl.
  now rewrite !string_compare_refl.
Qed.

Lemma select_map_not_nil {A : Type} (p : A -> bool) (l : list A) (x : A) :
  In x l -> p x = true -> Pandas.select (map p l) l <> [].
Proof.
  induction l as [| a rest IH]; simpl; [contradiction |].
  intros [-> | H] Hp.
  - rewrite Hp. discriminate.
  - destruct (p a); [discriminate | auto].
Qed.

Lemma select_length {A B : Type} (mask : list bool) (a : list A) (b : list B) :
  List.length a = List.length b ->
  List.length (Pandas.select mask a) = List.length (Pandas.select mask b).
Proof.
  revert a b. induction mask as [| m rest IH]; intros [| x a] [| y b] H;
    simpl in *; try discriminate; try reflexivity.
  - destruct m; reflexivity.
  - injection H as H. destruct m; simpl; auto.
Qed.

Lemma groupby_key_groups (df : DataFrame) :
  aligned df ->
  Forall (fun e => rows (snd e) <> [] /\ aligned (snd e)) (groupby_key df).
Proof.
  intros (hs & vs & Hh & Hv & Lh & Lv).
  unfold groupby_key. apply Forall_forall. intros [k g] Hin.
  apply in_map_iff in Hin. destruct Hin as (k' & E & Hk). injection E as <- <-.
  apply sorted_keys_incl in Hk. apply in_map_iff in Hk.
  destruct Hk as (r & Hr & Hin). simpl. split.
  - apply select_map_not_nil with (x := r); [exact Hin |].
    unfold Pandas.key_eqb. now rewrite Hr, key_compare_refl.
  - unfold aligned. simpl. rewrite Hh, Hv. simpl.
    eexists _, _. repeat split; apply select_length; assumption.
Qed.

(** ** The loops of the analysis *)

Lemma bind_ok {A B : Type} (r : result A) (k : A -> result B) (b : B) :
  bind r k = Ok b -> exists a, r = Ok a /\ k a = Ok b.
Proof. destruct r as [a | e]; simpl; [eauto | discriminate]. Qed.

Lemma for_each_ok {A B : Type} (body : A -> result B) (l : list A) (bs : list B) :
  for_each body l = Ok bs -> Forall2 (fun a b => body a = Ok b) l bs.
Proof.
  revert bs. induction l as [| a rest IH]; simpl; intros bs H.
  - injection H as <-. constructor.
  - apply bind_ok in H. destruct H as (b & Hb & H).
    apply bind_ok in H. destruct H as (bs' & Hbs & H).
    injection H as <-. constructor; auto.
Qed.

Lemma for_each_total {A B : Type} (body : A -> result B) (l : list A) :
  Forall (fun a => exists b, body a = Ok b) l ->
  exists bs, for_each body l = Ok bs.
Proof.
  induction 1 as [| a rest (b & Hb) _ (bs & Hbs)]; simpl.
  - eauto.
  - rewrite Hb. simpl. rewrite Hbs. simpl. eauto.
Qed.

Lemma for_each_length {A B : Type} (body : A -> result B) (l : list A) (bs : list B) :
  for_each body l = Ok bs -> List.length bs = List.length l.
Proof.
  intros H. apply for_each_ok in H.
  induction H; simpl; congruence.
Qed.

Lemma hourly_sum_total (group : DataFrame) :
  rows group <> [] -> aligned group ->
  exists first rest, hourly_sum group = Ok (first :: rest).
Proof.
  intros Hne (hs & vs & Hh & Hv & Lh & Lv).
  unfold hourly_sum, column_hour. rewrite Hh. simpl.
  destruct (rows group) as [| r rs] eqn:Er; [contradiction |].
  destruct hs as [| h hs']; [discriminate |]. simpl.
  unfold Pandas.groupby. simpl.
  pose proof (insert_key_not_nil Nat.compare h
    (Pandas.sorted_keys Nat.compare (map fst (combine hs' (map consumption_kwh rs))))) as N.
  destruct (Pandas.insert_key _ _ _) as [| k ks]; [contradiction |].
  simpl. eauto.
Qed.

Lemma summarize_total (key : GroupKey) (group : DataFrame) :
  rows group <> [] -> aligned group ->
  exists s, summarize (key, group) = Ok s.
Proof.
  intros Hne Ha.
  destruct (hourly_sum_total group Hne Ha) as (first & rest & Hs).
  destruct Ha as (hs & vs & Hh & Hv & Lh & Lv).
  destruct key as [[c d] dt]. unfold summarize. rewrite Hs. simpl.
  destruct (rows group) as [| r rs] eqn:Er; [contradiction |]. simpl.
  unfold column_violation. rewrite Hv. simpl. eauto.
Qed.

Lemma trend_total (key : GroupKey) (group : DataFrame) :
  rows group <> [] -> aligned group ->
  exists t, trend (key, group) = Ok t.
Proof.
  intros Hne Ha.
  destruct (hourly_sum_total group Hne Ha) as (first & rest & Hs).
  unfold trend. rewrite Hs. simpl. eauto.
Qed.

Lemma assign_violation_aligned (df : DataFrame) (hs : list nat) :
  hour df = Some hs -> List.length hs = List.length (rows df) ->
  aligned (assign_violation df).
Proof.
  intros Hh L. exists hs, (map (fun r => gt (consumption_kwh r) (threshold r)) (rows df)).
  simpl. repeat split; auto. apply length_map.
Qed.

(** What a successful call of [analyze_data] has done. *)
Lemma analyze_data_ok (df df' : DataFrame) (results : list Summary) :
  analyze_data df = Ok (df', results) ->
  exists hs,
    for_each hour_of (map timestamp (rows df)) = Ok hs /\
    df' = {| rows := rows df;
             hour := Some hs;
             violation := Some (map (fun r => gt (consumption_kwh r) (threshold r)) (rows df)) |} /\
    aligned df' /\
    Forall2 (fun e s => summarize e = Ok s) (groupby_key df') results.
Proof.
  unfold analyze_data, assign_hour. intros H.
  apply bind_ok in H. destruct H as (df1 & H1 & H).
  apply bind_ok in H1. destruct H1 as (hs & Hhs & H1). injection H1 as <-.
  apply bind_ok in H. destruct H as (res & Hres & H). injection H as <- <-.
  exists hs. split; [exact Hhs |]. split; [reflexivity |]. split.
  - eapply assign_violation_aligned; simpl; [reflexivity |].
    apply for_each_length in Hhs. now rewrite length_map in Hhs.
  - apply for_each_ok, Hres.
Qed.

(** [analyze_data] returns whenever every timestamp can be read. *)
Lemma analyze_data_total (df : DataFrame) (hs : list nat) :
  for_each hour_of (map timestamp (rows df)) = Ok hs ->
  exists df' results, analyze_data df = Ok (df', results).
Proof.
  intros Hhs. unfold analyze_data, assign_hour. rewrite Hhs. simpl.
  set (df1 := assign_violation _).
  assert (Ha : aligned df1).
  { eapply assign_violation_aligned; simpl; [reflexivity |].
    apply for_each_length in Hhs. now rewrite length_map in Hhs. }
  destruct (for_each_total summarize (groupby_key df1)) as (res & Hres).
  - eapply Forall_impl; [| apply groupby_key_groups, Ha].
    intros [k g] [Hne Hg]. apply summarize_total; assumption.
  - rewrite Hres. simpl. eauto.
Qed.

Lemma Forall2_impl {A B : Type} (P Q : A -> B -> Prop) (l : list A) (l' : list B) :
  (forall a b, P a b -> Q a b) -> Forall2 P l l' -> Forall2 Q l l'.
Proof. intros H. induction 1; constructor; auto. Qed.

Lemma Forall2_Forall_r {A B : Type} (P : A -> B -> Prop) (Q : B -> Prop)
    (l : list A) (l' : list B) :
  (forall a b, P a b -> Q b) -> Forall2 P l l' -> Forall Q l'.
Proof. intros H. induction 1; constructor; eauto. Qed.

(** What a successful pass through the body of the loop has computed. *)
Lemma summarize_ok (key : GroupKey) (group : DataFrame) (s : Summary) :
  summarize (key, group) = Ok s ->
  exists sums h crit vs,
    hourly_sum group = Ok sums /\
    Pandas.idxmax sums = Ok h /\
    iloc0 (map critical_hours (rows group)) = Ok crit /\
    violation group = Some vs /\
    (res_city s, res_district_id s, res_date s) = key /\
    peak_hour s = format_02d h ++ ":00" /\
    violations s = List.length (filter (fun b => b) vs) /\
    violation_ratio s =
      inject_Z (Z.of_nat (violations s)) / inject_Z (Z.of_nat (List.length (rows group))) /\
    risk_score s =
      compute_risk_score (violation_ratio s) (peak_hour_risk_of (peak_hour s) crit) /\
    risk_level s = assign_risk_level (risk_score s).
Proof.
  destruct key as [[c d] dt]. unfold summarize. intros H.
  apply bind_ok in H. destruct H as (sums & Hs & H).
  apply bind_ok in H. destruct H as (h & Hh & H).
  apply bind_ok in H. destruct H as (crit & Hc & H).
  apply bind_ok in H. destruct H as (vs & Hv & H).
  injection H as <-. simpl.
  exists sums, h, crit, vs. unfold column_violation in Hv.
  destruct (violation group); [| discriminate]. injection Hv as ->.
  repeat split; auto.
Qed.

Lemma compute_risk_score_gate (r : Q) (p : Z) :
  ((0.25 <= r \/ p = 1%Z) ->
     compute_risk_score r p = Pandas.round (0.6 * r + 0.4 * inject_Z p) 2) /\
  (~ (0.25 <= r \/ p = 1%Z) -> compute_risk_score r p = 0).
Proof.
  unfold compute_risk_score.
  destruct (Qle_bool 0.25 r) eqn:Er; [apply Qle_bool_iff in Er | apply Qle_bool_false in Er];
  (destruct (p =? 1)%Z eqn:Ep; [apply Z.eqb_eq in Ep | apply Z.eqb_neq in Ep]);
  simpl; split; intros H; try reflexivity.
  - exfalso. apply H. auto.
  - exfalso. apply H. auto.
  - exfalso. apply H. auto.
  - destruct H as [H | H]; [lra | contradiction].
Qed.

Lemma peak_hour_risk_binary (peak_hour_str : string) (crit : list string) :
  peak_hour_risk_of peak_hour_str crit = 0%Z \/ peak_hour_risk_of peak_hour_str crit = 1%Z.
Proof. unfold peak_hour_risk_of. destruct (existsb _ _); auto. Qed.

Lemma assign_risk_level_comp (x y : Q) :
  x == y -> assign_risk_level x = assign_risk_level y.
Proof.
  intros H. unfold assign_risk_level.
  rewrite (Qeqb_comp x y H 0 0 (Qeq_refl 0)).
  rewrite (Qleb_comp x y H 0.30 0.30 (Qeq_refl _)).
  rewrite (Qleb_comp x y H 0.60 0.60 (Qeq_refl _)).
  reflexivity.
Qed.



(** C8.  For violation ratios [r1 <= r2] in [0, 1] and the same peak hour
    risk (0 or 1), the risk score computed for [r1] (gate, formula and
    rounding) is at most the one computed for [r2]. *)
Theorem risk_score_monotone (r1 r2 : Q) (p : Z) :
  0 <= r1 -> r1 <= r2 -> r2 <= 1 -> (p = 0 \/ p = 1)%Z ->
  compute_risk_score r1 p <= compute_risk_score r2 p.
Proof.
  intros H0 H12 H1 Hp.
  destruct (compute_risk_score_gate r1 p) as [G1 N1].
  destruct (compute_risk_score_gate r2 p) as [G2 N2].
  destruct (Qlt_le_dec r1 0.25) as [Lo | Hi].
  - destruct Hp as [-> | ->].
    + rewrite N1 by (intros [C | C]; [lra | discriminate]).
      apply compute_risk_score_nonneg; [lra | lia].
    + rewrite G1, G2 by auto. apply round_monotone. lra.
  - rewrite G1, G2 by (left; lra). apply round_monotone. lra.
Qed.


(** The quarter table is the boundary case itself: ratio 1/4, peak hour not
    critical, score 0.15, level "LOW". *)
Example quarter_boundary :
  map (fun s => (peak_hour s, violations s, risk_level s)) quarter_results
    = [("00:00", 1%nat, "LOW")] /\
  Forall (fun s => violation_ratio s == 0.25 /\ risk_score s == 0.15) quarter_results.
Proof.
  split; [reflexivity |].
  repeat constructor.
Qed.


(** The day table is the end-to-end scenario: 8 violations in 24 rows and a
    critical peak hour give the score 0.60 and the level "MEDIUM"; the
    district without a violation and with an uncritical peak hour is
    "NO RISK". *)
Example day_scenario :
  map (fun s => (res_district_id s, peak_hour s, violations s, risk_level s)) day_results
    = [("101", "18:00", 8%nat, "MEDIUM"); ("102", "05:00", 0%nat, "NO RISK")] /\
  Forall2 (fun s score => risk_score s == score) day_results [0.60; 0].
Proof.
  split; [reflexivity |].
  repeat constructor.
Qed.

Lemma risk_score_monotone_witness :
  0 <= 0.2 /\ 0.2 <= 0.3 /\ 0.3 <= 1 /\ (0 = 0 \/ 0 = 1)%Z /\
  compute_risk_score 0.2 0 <= compute_risk_score 0.3 0.
Proof.
  assert (H0 : 0 <= 0.2) by (vm_compute; discriminate).
  assert (H1 : 0.2 <= 0.3) by (vm_compute; discriminate).
  assert (H2 : 0.3 <= 1) by (vm_compute; discriminate).
  assert (H3 : (0 = 0 \/ 0 = 1)%Z) by (left; reflexivity).
  exact (conj H0 (conj H1 (conj H2 (conj H3
           (risk_score_monotone 0.2 0.3 0 H0 H1 H2 H3))))).
Defined.

(** ** The violation column *)

Lemma gt_true (a : Pandas.cell) (b : Q) :
  gt a b = true <-> exists c, a = Some c /\ b < c.
Proof.
  destruct a as [v |]; simpl.
  - rewrite Qltb_true. split.
    + intros H. eauto.
    + intros (c & E & H). injection E as ->. exact H.
  - split; [discriminate | intros (c & E & _); discriminate].
Qed.

Lemma Forall2_map_r {A B : Type} (P : A -> B -> Prop) (f : A -> B) (l : list A) :
  (forall a, In a l -> P a (f a)) -> Forall2 P l (map f l).
Proof.
  induction l as [| a rest IH]; simpl; intros H; constructor; auto.
Qed.

(** C7.  In the table [analyze_data] leaves, the violation of a row is true
    exactly when the row has a consumption value strictly greater than its
    threshold; a consumption equal to the threshold is not a violation. *)
Theorem violation_iff_above_threshold (df df' : DataFrame) (results : list Summary) :
  analyze_data df = Ok (df', results) ->
  exists vs,
    violation df' = Some vs /\
    rows df' = rows df /\
    Forall2
      (fun r b =>
         (b = true <-> exists c, consumption_kwh r = Some c /\ threshold r < c) /\
         (forall c, consumption_kwh r = Some c -> c == threshold r -> b = false))
      (rows df') vs.
Proof.
  intros H. apply analyze_data_ok in H. destruct H as (hs & _ & -> & _ & _).
  eexists. split; [reflexivity |]. split; [reflexivity |]. simpl.
  apply Forall2_map_r. intros r _. split.
  - apply gt_true.
  - intros c E Hc. destruct (gt (consumption_kwh r) (threshold r)) eqn:G; [| reflexivity].
    apply gt_true in G. destruct G as (c' & E' & Hlt).
    rewrite E in E'. injection E' as <-. lra.
Qed.

Lemma violation_iff_above_threshold_witness :
  analyze_data threshold_table = Ok (threshold_analyzed, threshold_results) /\
  exists vs,
    violation threshold_analyzed = Some vs /\
    rows threshold_analyzed = rows threshold_table /\
    Forall2
      (fun r b =>
         (b = true <-> exists c, consumption_kwh r = Some c /\ threshold r < c) /\
         (forall c, consumption_kwh r = Some c -> c == threshold r -> b = false))
      (rows threshold_analyzed) vs.
Proof.
  split.
  - vm_compute. reflexivity.
  - apply (violation_iff_above_threshold threshold_table threshold_analyzed threshold_results).
    vm_compute. reflexivity.
Defined.

Example threshold_violations :
  violation threshold_analyzed = Some [false; true; false; false].
Proof. reflexivity. Qed.

(** ** The peak hour *)















Lemma Forall2_and_l {A B : Type} (P : A -> Prop) (R : A -> B -> Prop)
    (l : list A) (l' : list B) :
  Forall P l -> Forall2 R l l' -> Forall2 (fun a b => P a /\ R a b) l l'.
Proof.
  intros HP HR. induction HR; constructor.
  - split; [eapply Forall_inv, HP | assumption].
  - apply IHHR. eapply Forall_inv_tail, HP.
Qed.



(** The hourly sums of the tie table are {0: 5.0, 3: 5.0, 7: 2.0} and its
    peak hour is 0. *)
Example tie_peak_hour :
  map peak_hour tie_results = ["00:00"] /\
  exists sums,
    Forall2 (fun entry expected =>
               hourly_sum (snd entry) = Ok sums /\
               Forall2 (fun e x => fst e = fst x /\ snd e == snd x) sums expected)
      (groupby_key tie_analyzed) [[(0%nat, 5.0); (3%nat, 5.0); (7%nat, 2.0)]].
Proof.
  split; [reflexivity |].
  eexists. repeat constructor.
Qed.

(** ** The loops of the loader *)

Lemma and_then_nothing (st : LoadState) : and_then st nothing_loaded = st.
Proof.
  destruct st as [l a]. unfold and_then. simpl. now rewrite !app_nil_r.
Qed.

Lemma and_then_assoc (a b c : LoadState) :
  and_then (and_then a b) c = and_then a (and_then b c).
Proof. unfold and_then. simpl. now rewrite !app_assoc. Qed.

Lemma load_district_and_then (fs : FileSystem) (city date : string)
    (crit : list string) (st : LoadState) (d : DistrictMeta) :
  load_district fs city date crit st d =
  and_then st (load_district fs city date crit nothing_loaded d).
Proof.
  unfold load_district.
  destruct (csv_dir fs _) as [[| df] |];
    unfold and_then, print, append; simpl; now rewrite ?app_nil_r.
Qed.

Lemma fold_left_and_then {A : Type} (step : LoadState -> A -> LoadState) (l : list A) :
  (forall st a, step st a = and_then st (step nothing_loaded a)) ->
  forall st, fold_left step l st = and_then st (fold_left step l nothing_loaded).
Proof.
  intros Hstep. induction l as [| a rest IH]; intros st; simpl.
  - now rewrite and_then_nothing.
  - rewrite IH, (IH (step nothing_loaded a)), Hstep. apply and_then_assoc.
Qed.

Lemma load_json_and_then (fs : FileSystem) (st : LoadState) (entry : string * json_file) :
  load_json fs st entry = and_then st (load_json fs nothing_loaded entry).
Proof.
  unfold load_json. destruct (snd entry) as [| m].
  - unfold and_then, print; simpl; now rewrite ?app_nil_r.
  - apply fold_left_and_then. intros. apply load_district_and_then.
Qed.

(** What the loops leave: the warnings and the tables of each element, in
    the order of the list. *)
Lemma fold_left_log {A : Type} (step : LoadState -> A -> LoadState) (l : list A) :
  (forall st a, step st a = and_then st (step nothing_loaded a)) ->
  log (fold_left step l nothing_loaded)
    = flat_map (fun a => log (step nothing_loaded a)) l /\
  all_data (fold_left step l nothing_loaded)
    = flat_map (fun a => all_data (step nothing_loaded a)) l.
Proof.
  intros Hstep. induction l as [| a rest [IHl IHa]]; simpl; [auto |].
  rewrite (fold_left_and_then step rest Hstep). simpl.
  now rewrite IHl, IHa.
Qed.

Lemma load_json_parsed (fs : FileSystem) (name : string) (m : CityMeta) :
  log (load_json fs nothing_loaded (name, Parsed m))
    = flat_map (fun d => log (load_district fs (get (meta_city m) "UnknownCity")
                                (get (meta_date m) "UnknownDate")
                                (get (meta_critical_hours m) []) nothing_loaded d))
        (get (meta_districts m) []) /\
  all_data (load_json fs nothing_loaded (name, Parsed m))
    = flat_map (fun d => all_data (load_district fs (get (meta_city m) "UnknownCity")
                                     (get (meta_date m) "UnknownDate")
                                     (get (meta_critical_hours m) []) nothing_loaded d))
        (get (meta_districts m) []).
Proof.
  unfold load_json. simpl. apply fold_left_log.
  intros. apply load_district_and_then.
Qed.

Lemma load_files (fs : FileSystem) (files : list (string * json_file)) :
  log (fold_left (load_json fs) files nothing_loaded)
    = flat_map (fun e => log (load_json fs nothing_loaded e)) files /\
  all_data (fold_left (load_json fs) files nothing_loaded)
    = flat_map (fun e => all_data (load_json fs nothing_loaded e)) files.
Proof. apply fold_left_log. intros. apply load_json_and_then. Qed.


(** What [load_and_merge_data] returns, in terms of the loops. *)
Lemma load_and_merge_data_ok (fs : FileSystem) (df : DataFrame) :
  snd (load_and_merge_data fs) = Ok df ->
  exists files,
    json_dir fs = Some files /\
    all_data (fold_left (load_json fs) files nothing_loaded) <> [] /\
    df = loaded (List.concat (all_data (fold_left (load_json fs) files nothing_loaded))).
Proof.
  unfold load_and_merge_data. destruct (json_dir fs) as [files |]; [| discriminate].
  fold nothing_loaded.
  destruct (all_data (fold_left (load_json fs) files nothing_loaded)) eqn:E;
    simpl; [discriminate |].
  intros H. injection H as <-. exists files. rewrite E.
  repeat split; [discriminate].
Qed.






(** In the sample directories one table merges, and the three defects are
    only warnings. *)
Example sample_fs_loads :
  fst (load_and_merge_data sample_fs)
    = [ SkippingCorruptedJSON "city_City0_2025-09-10.json";
        MissingCSV "district_City1_102_2025-09-10.csv";
        EmptyCSVSkipped "district_City1_103_2025-09-10.csv" ] /\
  exists df,
    snd (load_and_merge_data sample_fs) = Ok df /\
    map district_id (rows df) = ["101"; "101"; "101"].
Proof.
  split; [reflexivity |]. eexists. split; reflexivity.
Qed.

Example nothing_to_load :
  snd (load_and_merge_data no_json_dir) = Raise FileNotFoundError /\
  snd (load_and_merge_data empty_dirs) = Raise no_data /\
  load_and_merge_data only_corrupted
    = ([SkippingCorruptedJSON "city_City1_2025-09-10.json"], Raise no_data).
Proof. repeat split. Qed.


(** ** Imputation *)

Lemma sum_non_missing (df : list Reading) :
  Pandas.sum (map csv_consumption_kwh df) = fold_right Qplus 0 (non_missing df).
Proof.
  induction df as [| r rest IH]; simpl; [reflexivity |].
  destruct (csv_consumption_kwh r); simpl; now rewrite IH.
Qed.

Lemma count_non_missing (df : list Reading) :
  Pandas.count (map csv_consumption_kwh df) = List.length (non_missing df).
Proof.
  induction df as [| r rest IH]; simpl; [reflexivity |].
  destruct (csv_consumption_kwh r); simpl; now rewrite IH.
Qed.

Lemma mean_non_missing (df : list Reading) :
  Pandas.mean (map csv_consumption_kwh df) =
  match non_missing df with
  | [] => None
  | _ :: _ => Some (arithmetic_mean (non_missing df))
  end.
Proof.
  unfold Pandas.mean, arithmetic_mean.
  rewrite count_non_missing, sum_non_missing.
  destruct (non_missing df); reflexivity.
Qed.

Lemma set_consumption_same (r : Reading) :
  set_consumption r (csv_consumption_kwh r) = r.
Proof. destruct r; reflexivity. Qed.

Lemma map_id_ext {A : Type} (f : A -> A) (l : list A) :
  (forall a, f a = a) -> map f l = l.
Proof.
  intros H. induction l as [| a rest IH]; simpl; [reflexivity |].
  now rewrite H, IH.
Qed.

Lemma fill_missing_nothing (m : Q) (df : list Reading) :
  filter Pandas.isna (map csv_consumption_kwh df) = [] ->
  map (fill_missing m) df = df.
Proof.
  induction df as [| r rest IH]; simpl; [reflexivity |].
  unfold fill_missing at 1. destruct (csv_consumption_kwh r); simpl.
  - intros H. now rewrite IH.
  - discriminate.
Qed.

Lemma impute_cases (df : list Reading) :
  (non_missing df <> [] ->
     impute df = map (fill_missing (arithmetic_mean (non_missing df))) df) /\
  (non_missing df = [] -> impute df = df).
Proof.
  unfold impute.
  destruct (filter Pandas.isna (map csv_consumption_kwh df)) as [| c cs] eqn:E; simpl.
  - split; intros _; [| reflexivity].
    symmetry. apply fill_missing_nothing, E.
  - rewrite mean_non_missing. split; intros H.
    + destruct (non_missing df) as [| v vs] eqn:Ev; [contradiction |]. rewrite <- Ev.
      apply map_ext. intros r. unfold fill_missing.
      destruct (csv_consumption_kwh r) eqn:Er; simpl; [| reflexivity].
      rewrite <- Er. apply set_consumption_same.
    + rewrite H. apply map_id_ext. intros r.
      destruct (csv_consumption_kwh r) eqn:Er; simpl; rewrite <- Er;
        apply set_consumption_same.
Qed.



(** [1.0, missing, 3.0] becomes [1.0, 2.0, 3.0]. *)
Example gap_table_filled :
  exists m,
    map csv_consumption_kwh (impute gap_table) = [Some 1.0; Some m; Some 3.0] /\
    m == 2.0.
Proof. eexists. split; reflexivity. Qed.







(** ** Metadata files with absent fields *)



(** The metadata file without a city, a date, critical hours and a
    threshold is loaded with the defaults. *)
Example bare_fs_loads :
  fst (load_and_merge_data bare_fs) = [] /\
  map (fun r => (city r, district_id r, critical_hours r)) (rows bare_loaded)
    = [("UnknownCity", "101", [])] /\
  Forall (fun r => threshold r == 1.5) (rows bare_loaded).
Proof.
  split; [reflexivity |]. split; [reflexivity |].
  repeat constructor.
Qed.

(** ** The derived columns and the visualizer *)

Lemma groupby_key_not_nil (df : DataFrame) :
  rows df <> [] -> groupby_key df <> [].
Proof.
  intros H C. unfold groupby_key in C. apply map_eq_nil in C.
  destruct (rows df) as [| r rs]; [contradiction |].
  exact (sorted_keys_not_nil key_compare (group_key r) (map group_key rs) C).
Qed.

Lemma visualize_results_key_error (results_df : list Summary) (df : DataFrame) :
  hour df = None -> rows df <> [] ->
  visualize_results results_df df = Raise (KeyError "hour").
Proof.
  intros Hh Hne. unfold visualize_results.
  pose proof (groupby_key_not_nil df Hne) as N.
  destruct (groupby_key df) as [| [k g] rest] eqn:E; [contradiction |].
  assert (Hg : hour g = None).
  { unfold groupby_key in E.
    destruct (Pandas.sorted_keys key_compare (map group_key (rows df))) as [| k' ks];
      [discriminate |].
    simpl in E. injection E as _ <- _. simpl. now rewrite Hh. }
  simpl. unfold trend, hourly_sum, column_hour. rewrite Hg. reflexivity.
Qed.

Lemma visualize_results_total (results_df : list Summary) (df : DataFrame) :
  aligned df -> exists charts, visualize_results results_df df = Ok charts.
Proof.
  intros Ha. unfold visualize_results.
  destruct (for_each_total trend (groupby_key df)) as (ts & Hts).
  - eapply Forall_impl; [| apply groupby_key_groups, Ha].
    intros [k g] [Hne Hg]. apply trend_total; assumption.
  - rewrite Hts. simpl. eauto.
Qed.

(** C10, as the code has it.  [analyze_data] leaves the table it was given
    with the same rows and with the columns [hour] and [violation]
    assigned; [visualize_results] returns on that table, as it does in
    [main], and on a table with at least one row and no [hour] column it
    raises the key error of that column.  On a table without rows it reads
    no column and returns. *)
Theorem visualizer_reads_assigned_hour (df df' : DataFrame) (results : list Summary) :
  analyze_data df = Ok (df', results) ->
  rows df' = rows df /\
  (exists hs vs,
     hour df' = Some hs /\ violation df' = Some vs /\
     List.length hs = List.length (rows df) /\
     List.length vs = List.length (rows df)) /\
  (exists charts,
     visualize_results results df' = Ok charts /\
     forall fs, snd (load_and_merge_data fs) = Ok df ->
       snd (main fs) = Ok (results, charts)) /\
  (forall results_df table,
     hour table = None -> rows table <> [] ->
     visualize_results results_df table = Raise (KeyError "hour")) /\
  (forall results_df table,
     rows table = [] -> exists charts, visualize_results results_df table = Ok charts).
Proof.
  intros H. pose proof H as H0.
  apply analyze_data_ok in H. destruct H as (hs & _ & Edf & Ha & _).
  assert (Er : rows df' = rows df) by (rewrite Edf; reflexivity).
  split; [exact Er |]. split.
  - destruct Ha as (hs' & vs & Hh & Hv & Lh & Lv). rewrite Er in Lh, Lv. eauto 6.
  - split.
    + destruct (visualize_results_total results df' Ha) as [charts Hc].
      exists charts. split; [exact Hc |].
      intros fs Hl. unfold main.
      destruct (load_and_merge_data fs) as [printed data]. simpl in *.
      rewrite Hl. simpl. rewrite H0. simpl. rewrite Hc. reflexivity.
    + split.
      * intros results_df table. apply visualize_results_key_error.
      * intros results_df table E. unfold visualize_results, groupby_key.
        rewrite E. simpl. eauto.
Qed.

Lemma visualizer_reads_assigned_hour_witness :
  analyze_data day_table = Ok (day_analyzed, day_results) /\
  (exists charts, visualize_results day_results day_analyzed = Ok charts) /\
  visualize_results day_results day_table = Raise (KeyError "hour").
Proof.
  assert (H : analyze_data day_table = Ok (day_analyzed, day_results))
    by (vm_compute; reflexivity).
  destruct (visualizer_reads_assigned_hour day_table day_analyzed day_results H)
    as (_ & _ & (charts & Hv & _) & Hk & _).
  refine (conj H (conj (ex_intro _ charts Hv) _)).
  apply Hk; [reflexivity | discriminate].
Defined.

(** On a table without rows [visualize_results] reads no column: it
    returns although [analyze_data] never assigned [hour]. *)
Lemma visualizer_returns_on_empty_table :
  snd (load_and_merge_data header_only_fs) = Ok (loaded []) /\
  hour (loaded []) = None /\
  visualize_results [] (loaded []) = Ok ([], []).
Proof. repeat split. Qed.

(** ** The boundary cases on binary64 *)

(** One violation in four rows with an uncritical peak hour: the ratio is
    0.25, the score the double 0.15 and the level "LOW".  Eight violations
    in 24 rows with a critical peak hour: the score is the double 0.6 and
    the level "MEDIUM".  No violation and an uncritical peak hour: score 0
    and "NO RISK". *)
Example binary64_boundaries :
  Binary64.score_and_level 1 4 0 = Binary64.expected_quarter /\
  Binary64.score_and_level 8 24 1 = Binary64.expected_day /\
  Binary64.score_and_level 0 24 0 = (0%float, "NO RISK").
Proof. repeat split; vm_compute; reflexivity. Qed.

(** * Further properties of the analysis *)

Lemma select_map {A B : Type} (f : A -> B) (mask : list bool) (l : list A) :
  Pandas.select mask (map f l) = map f (Pandas.select mask l).
Proof.
  revert l. induction mask as [| m rest IH]; intros [| a l]; simpl; try reflexivity.
  - destruct m; reflexivity.
  - destruct m; simpl; now rewrite IH.
Qed.

Lemma for_each_select {A B : Type} (body : A -> result B) (mask : list bool)
    (l : list A) (bs : list B) :
  for_each body l = Ok bs ->
  for_each body (Pandas.select mask l) = Ok (Pandas.select mask bs).
Proof.
  revert l bs. induction mask as [| m rest IH]; intros [| a l] bs H; simpl in *.
  - reflexivity.
  - reflexivity.
  - injection H as <-. destruct m; reflexivity.
  - apply bind_ok in H. destruct H as (b & Hb & H).
    apply bind_ok in H. destruct H as (bs' & Hbs & H). injection H as <-.
    destruct m; simpl.
    + rewrite Hb. simpl. rewrite (IH l bs' Hbs). reflexivity.
    + apply IH, Hbs.
Qed.

Lemma analyze_data_analyzed (df df' : DataFrame) (results : list Summary) :
  analyze_data df = Ok (df', results) -> analyzed df'.
Proof.
  intros H. apply analyze_data_ok in H. destruct H as (hs & Hhs & -> & _ & _).
  exists hs. simpl. auto.
Qed.

Lemma groupby_key_analyzed (df : DataFrame) :
  analyzed df -> Forall (fun e => analyzed (snd e)) (groupby_key df).
Proof.
  intros (hs & Hhs & Hh & Hv). unfold groupby_key. apply Forall_forall.
  intros [k g] Hin. apply in_map_iff in Hin. destruct Hin as (k' & E & _).
  injection E as <- <-. simpl. unfold analyzed. simpl. rewrite Hh, Hv. simpl.
  exists (Pandas.select (map (fun r => Pandas.key_eqb key_compare (group_key r) k') (rows df)) hs).
  split; [| split; [reflexivity |]].
  - rewrite <- select_map. apply for_each_select, Hhs.
  - now rewrite select_map.
Qed.

(** The groups of the analysed table with their summaries. *)
Lemma analyze_data_groups (df df' : DataFrame) (results : list Summary) :
  analyze_data df = Ok (df', results) ->
  Forall2
    (fun e s => rows (snd e) <> [] /\ analyzed (snd e) /\ summarize e = Ok s)
    (groupby_key df') results.
Proof.
  intros H. pose proof (analyze_data_analyzed _ _ _ H) as Han.
  apply analyze_data_ok in H. destruct H as (hs & _ & _ & Ha & H).
  pose proof (Forall2_and_l _ _ _ _ (groupby_key_analyzed df' Han) H) as H1.
  pose proof (Forall2_and_l _ _ _ _ (groupby_key_groups df' Ha) H1) as H2.
  eapply Forall2_impl; [| exact H2]. intros e s [[Hne _] [Hz Hs]]. auto.
Qed.

Lemma filter_length_le_map {A : Type} (f : A -> bool) (l : list A) :
  (List.length (filter (fun b => b) (map f l)) <= List.length l)%nat.
Proof.
  induction l as [| a rest IH]; simpl; [lia |].
  destruct (f a); simpl; lia.
Qed.

Lemma filter_map_comm {A : Type} (f : A -> bool) (l : list A) :
  List.length (filter (fun b => b) (map f l)) = List.length (filter f l).
Proof.
  induction l as [| a rest IH]; simpl; [reflexivity |].
  destruct (f a); simpl; now rewrite IH.
Qed.

Lemma ratio_in_unit_interval (a b : nat) :
  (a <= b)%nat -> (0 < b)%nat ->
  0 <= inject_Z (Z.of_nat a) / inject_Z (Z.of_nat b) /\
  inject_Z (Z.of_nat a) / inject_Z (Z.of_nat b) <= 1.
Proof.
  intros Hab Hb.
  assert (Ha : 0 <= inject_Z (Z.of_nat a)).
  { change 0 with (inject_Z 0). rewrite <- Zle_Qle. lia. }
  assert (Hb' : 0 < inject_Z (Z.of_nat b)).
  { change 0 with (inject_Z 0). rewrite <- Zlt_Qlt. lia. }
  assert (Hab' : inject_Z (Z.of_nat a) <= inject_Z (Z.of_nat b)).
  { rewrite <- Zle_Qle. lia. }
  split.
  - apply Qle_shift_div_l; [exact Hb' | lra].
  - apply Qle_shift_div_r; [exact Hb' | lra].
Qed.

(** X1.  For every group, [violations] is the number of rows of the group
    whose consumption is above their threshold, at most the number of rows,
    and [violation_ratio] is between 0 and 1. *)
Theorem violation_ratio_in_range (df df' : DataFrame) (results : list Summary) :
  analyze_data df = Ok (df', results) ->
  Forall2
    (fun entry s =>
       violations s = List.length (filter is_violation (rows (snd entry))) /\
       (violations s <= List.length (rows (snd entry)))%nat /\
       (0 < List.length (rows (snd entry)))%nat /\
       0 <= violation_ratio s /\ violation_ratio s <= 1)
    (groupby_key df') results.
Proof.
  intros H. apply analyze_data_groups in H.
  eapply Forall2_impl; [| exact H]. clear. intros [key g] s (Hne & Han & Hs). simpl in *.
  destruct Han as (hs & _ & _ & Hv).
  apply summarize_ok in Hs.
  destruct Hs as (sums & h & crit & vs & _ & _ & _ & Hv' & _ & _ & Hn & Hr & _).
  rewrite Hv in Hv'. injection Hv' as <-.
  assert (Hlen : (0 < List.length (rows g))%nat).
  { destruct (rows g); [contradiction | simpl; lia]. }
  assert (Hle : (violations s <= List.length (rows g))%nat).
  { rewrite Hn. apply filter_length_le_map. }
  split; [rewrite Hn; apply filter_map_comm |].
  split; [exact Hle |]. split; [exact Hlen |].
  rewrite Hr. apply ratio_in_unit_interval; assumption.
Qed.

Lemma violation_ratio_in_range_witness :
  analyze_data quarter_table = Ok (quarter_analyzed, quarter_results) /\
  Forall2
    (fun entry s =>
       violations s = List.length (filter is_violation (rows (snd entry))) /\
       (violations s <= List.length (rows (snd entry)))%nat /\
       (0 < List.length (rows (snd entry)))%nat /\
       0 <= violation_ratio s /\ violation_ratio s <= 1)
    (groupby_key quarter_analyzed) quarter_results.
Proof.
  assert (H : analyze_data quarter_table = Ok (quarter_analyzed, quarter_results))
    by (vm_compute; reflexivity).
  exact (conj H (violation_ratio_in_range _ _ _ H)).
Defined.

(** ** The range of the risk score *)

Lemma round2_hundredths (x : Q) :
  Pandas.round x 2 == inject_Z (Pandas.rint (x * 100)) / 100.
Proof. reflexivity. Qed.

Lemma rint_inject_Z (z : Z) : Pandas.rint (inject_Z z) = z.
Proof.
  unfold Pandas.rint. rewrite Qfloor_Z.
  destruct (Qcompare_spec (inject_Z z - inject_Z z) (1 # 2)) as [H | H | H];
    [lra | reflexivity | lra].
Qed.

Lemma round2_between (x : Q) (lo hi : Z) :
  inject_Z lo <= x * 100 -> x * 100 <= inject_Z hi ->
  exists n, (lo <= n <= hi)%Z /\ Pandas.round x 2 == inject_Z n / 100.
Proof.
  intros Hlo Hhi. exists (Pandas.rint (x * 100)). split; [| apply round2_hundredths].
  split.
  - rewrite <- (rint_inject_Z lo). apply rint_monotone, Hlo.
  - rewrite <- (rint_inject_Z hi). apply rint_monotone, Hhi.
Qed.

(** The score by the two inputs of the formula. *)
Lemma compute_risk_score_cases (r : Q) (p : Z) :
  0 <= r -> r <= 1 -> (p = 0 \/ p = 1)%Z ->
  exists n : Z,
    compute_risk_score r p == inject_Z n / 100 /\
    ((p = 0%Z /\ r < 0.25 /\ n = 0%Z) \/
     (p = 0%Z /\ 0.25 <= r /\ (15 <= n <= 60)%Z) \/
     (p = 1%Z /\ (40 <= n <= 100)%Z)).
Proof.
  intros H0 H1 Hp.
  destruct (compute_risk_score_gate r p) as [G N].
  destruct Hp as [-> | ->].
  - destruct (Qlt_le_dec r 0.25) as [Lo | Hi].
    + exists 0%Z. split.
      * rewrite N; [reflexivity |]. intros [C | C]; [lra | discriminate].
      * left. auto.
    + destruct (round2_between (0.6 * r + 0.4 * inject_Z 0) 15 60) as (n & Hn & E).
      * change (inject_Z 15) with 15. change (inject_Z 0) with 0. lra.
      * change (inject_Z 60) with 60. change (inject_Z 0) with 0. lra.
      * exists n. split; [rewrite G by (left; exact Hi); exact E |].
        right. left. auto.
  - destruct (round2_between (0.6 * r + 0.4 * inject_Z 1) 40 100) as (n & Hn & E).
    + change (inject_Z 40) with 40. change (inject_Z 1) with 1. lra.
    + change (inject_Z 100) with 100. change (inject_Z 1) with 1. lra.
    + exists n. split; [rewrite G by (right; reflexivity); exact E |].
      right. right. auto.
Qed.

Lemma hundredths_le (n m : Z) : (n <= m)%Z -> inject_Z n / 100 <= inject_Z m / 100.
Proof.
  intros H. rewrite Zle_Qle in H. unfold Qdiv.
  apply Qmult_le_compat_r; [exact H | discriminate].
Qed.

(** The summaries of the analysed table with what the score is computed
    from. *)
Lemma analyze_data_scores (df df' : DataFrame) (results : list Summary) :
  analyze_data df = Ok (df', results) ->
  Forall2
    (fun e s =>
       exists crit,
         iloc0 (map critical_hours (rows (snd e))) = Ok crit /\
         0 <= violation_ratio s /\ violation_ratio s <= 1 /\
         risk_score s =
           compute_risk_score (violation_ratio s) (peak_hour_risk_of (peak_hour s) crit) /\
         risk_level s = assign_risk_level (risk_score s))
    (groupby_key df') results.
Proof.
  intros H. apply analyze_data_groups in H.
  eapply Forall2_impl; [| exact H]. clear. intros [key g] s (Hne & Han & Hs). simpl in *.
  destruct Han as (hs & _ & _ & Hv).
  apply summarize_ok in Hs.
  destruct Hs as (sums & h & crit & vs & _ & _ & Hc & Hv' & _ & _ & Hn & Hr & Hsc & Hl).
  rewrite Hv in Hv'. injection Hv' as <-.
  exists crit. split; [exact Hc |].
  assert (B : 0 <= violation_ratio s /\ violation_ratio s <= 1).
  { rewrite Hr. apply ratio_in_unit_interval.
    - rewrite Hn. apply filter_length_le_map.
    - destruct (rows g); [contradiction | simpl; lia]. }
  destruct B. auto.
Qed.

(** X2.  The risk score of every summary is a whole number of hundredths
    between 0 and 1. *)
Theorem risk_score_in_hundredths (df df' : DataFrame) (results : list Summary) :
  analyze_data df = Ok (df', results) ->
  Forall
    (fun s =>
       exists n : Z,
         (0 <= n <= 100)%Z /\ risk_score s == inject_Z n / 100 /\
         0 <= risk_score s /\ risk_score s <= 1)
    results.
Proof.
  intros H. apply analyze_data_scores in H.
  eapply Forall2_Forall_r; [| exact H]. clear.
  intros e s (crit & _ & H0 & H1 & Hs & _).
  destruct (compute_risk_score_cases (violation_ratio s)
              (peak_hour_risk_of (peak_hour s) crit) H0 H1
              (peak_hour_risk_binary _ _)) as (n & E & C).
  rewrite <- Hs in E.
  assert (Hn : (0 <= n <= 100)%Z) by (destruct C as [C | [C | C]]; lia).
  exists n. split; [exact Hn |]. split; [exact E |].
  rewrite E. split.
  - apply Qle_trans with (inject_Z 0 / 100); [discriminate |].
    apply hundredths_le. lia.
  - apply Qle_trans with (inject_Z 100 / 100); [| discriminate].
    apply hundredths_le. lia.
Qed.

Lemma risk_score_in_hundredths_witness :
  analyze_data day_table = Ok (day_analyzed, day_results) /\
  Forall
    (fun s =>
       exists n : Z,
         (0 <= n <= 100)%Z /\ risk_score s == inject_Z n / 100 /\
         0 <= risk_score s /\ risk_score s <= 1)
    day_results.
Proof.
  assert (H : analyze_data day_table = Ok (day_analyzed, day_results))
    by (vm_compute; reflexivity).
  exact (conj H (risk_score_in_hundredths _ _ _ H)).
Defined.

(** ** The risk level by what the score is computed from *)

Lemma risk_level_cases (r : Q) (p : Z) :
  0 <= r -> r <= 1 -> (p = 0 \/ p = 1)%Z ->
  let level := assign_risk_level (compute_risk_score r p) in
  (p = 0%Z /\ r < 0.25 /\ level = "NO RISK") \/
  (p = 0%Z /\ 0.25 <= r /\ (level = "LOW" \/ level = "MEDIUM")) \/
  (p = 1%Z /\ (level = "MEDIUM" \/ level = "HIGH")).
Proof.
  intros H0 H1 Hp. simpl.
  destruct (compute_risk_score_cases r p H0 H1 Hp) as (n & E & C).
  rewrite (assign_risk_level_comp _ _ E).
  destruct (assign_risk_level_spec (inject_Z n / 100)) as (A0 & A1 & A2 & A3 & _).
  destruct C as [(Ep & Hr & ->) | [(Ep & Hr & Hn) | (Ep & Hn)]].
  - left. repeat split; auto.
  - right. left. repeat split; auto.
    pose proof (hundredths_le 15 n ltac:(lia)) as L1.
    pose proof (hundredths_le n 60 ltac:(lia)) as L2.
    assert (B1 : 0 < inject_Z 15 / 100) by reflexivity.
    assert (B2 : inject_Z 60 / 100 <= 0.60) by discriminate.
    destruct (Qlt_le_dec 0.30 (inject_Z n / 100)) as [Hi | Lo].
    + right. apply A2; lra.
    + left. apply A1; lra.
  - right. right. split; [exact Ep |].
    pose proof (hundredths_le 40 n ltac:(lia)) as L1.
    assert (B1 : 0.30 < inject_Z 40 / 100) by reflexivity.
    destruct (Qlt_le_dec 0.60 (inject_Z n / 100)) as [Hi | Lo].
    + right. apply A3; lra.
    + left. apply A2; lra.
Qed.

(** X3.  For every group: the level is "NO RISK" exactly when the violation
    ratio is below 0.25 and the peak hour is not critical; a group whose peak
    hour is not critical is never "HIGH"; a group whose peak hour is critical
    is "MEDIUM" or "HIGH"; and "LOW" occurs only with a ratio of at least
    0.25 and a peak hour that is not critical. *)
Theorem risk_level_by_ratio_and_peak (df df' : DataFrame) (results : list Summary) :
  analyze_data df = Ok (df', results) ->
  Forall2
    (fun entry s =>
       exists crit,
         iloc0 (map critical_hours (rows (snd entry))) = Ok crit /\
         let p := peak_hour_risk_of (peak_hour s) crit in
         (risk_level s = "NO RISK" <-> violation_ratio s < 0.25 /\ p = 0%Z) /\
         (p = 0%Z -> risk_level s <> "HIGH") /\
         (p = 1%Z -> risk_level s = "MEDIUM" \/ risk_level s = "HIGH") /\
         (risk_level s = "LOW" -> 0.25 <= violation_ratio s /\ p = 0%Z))
    (groupby_key df') results.
Proof.
  intros H. apply analyze_data_scores in H.
  eapply Forall2_impl; [| exact H]. clear.
  intros e s (crit & Hc & H0 & H1 & Hs & Hl).
  exists crit. split; [exact Hc |]. simpl.
  pose proof (risk_level_cases (violation_ratio s)
                (peak_hour_risk_of (peak_hour s) crit) H0 H1
                (peak_hour_risk_binary _ _)) as C.
  simpl in C. rewrite <- Hs, <- Hl in C.
  destruct C as [(Ep & Hr & L) | [(Ep & Hr & L) | (Ep & L)]]; rewrite Ep.
  - rewrite L. split; [| split; [| split]].
    + split; [intros _; split; [exact Hr | reflexivity] | reflexivity].
    + intros _. discriminate.
    + intros C. discriminate C.
    + intros C. discriminate C.
  - split; [| split; [| split]].
    + split.
      * intros E. destruct L as [L | L]; rewrite L in E; discriminate.
      * intros [Hlt _]. lra.
    + intros _ E. destruct L as [L | L]; rewrite L in E; discriminate.
    + intros C. discriminate C.
    + intros _. split; [exact Hr | reflexivity].
  - split; [| split; [| split]].
    + split.
      * intros E. destruct L as [L | L]; rewrite L in E; discriminate.
      * intros [_ C]. discriminate C.
    + intros C. discriminate C.
    + intros _. exact L.
    + intros E. destruct L as [L | L]; rewrite L in E; discriminate.
Qed.

Lemma risk_level_by_ratio_and_peak_witness :
  analyze_data day_table = Ok (day_analyzed, day_results) /\
  Forall2
    (fun entry s =>
       exists crit,
         iloc0 (map critical_hours (rows (snd entry))) = Ok crit /\
         let p := peak_hour_risk_of (peak_hour s) crit in
         (risk_level s = "NO RISK" <-> violation_ratio s < 0.25 /\ p = 0%Z) /\
         (p = 0%Z -> risk_level s <> "HIGH") /\
         (p = 1%Z -> risk_level s = "MEDIUM" \/ risk_level s = "HIGH") /\
         (risk_level s = "LOW" -> 0.25 <= violation_ratio s /\ p = 0%Z))
    (groupby_key day_analyzed) day_results.
Proof.
  assert (H : analyze_data day_table = Ok (day_analyzed, day_results))
    by (vm_compute; reflexivity).
  exact (conj H (risk_level_by_ratio_and_peak _ _ _ H)).
Defined.

(** ** Running the analysis again *)

(** X4.  [analyze_data] reads only the rows of the table: run on the table
    it has left, it leaves the same table and returns the same summaries. *)
Theorem analyze_data_again (df df' : DataFrame) (results : list Summary) :
  analyze_data df = Ok (df', results) ->
  analyze_data df' = Ok (df', results).
Proof.
  intros H. pose proof H as H0. apply analyze_data_ok in H.
  destruct H as (hs & Hhs & Edf & _ & _).
  assert (E : forall d, rows d = rows df -> analyze_data d = analyze_data df).
  { intros d Er. unfold analyze_data, assign_hour, assign_violation. rewrite Er.
    destruct (for_each hour_of (map timestamp (rows df))); reflexivity. }
  rewrite (E df'); [exact H0 |]. rewrite Edf. reflexivity.
Qed.

Lemma analyze_data_again_witness :
  analyze_data day_table = Ok (day_analyzed, day_results) /\
  analyze_data day_analyzed = Ok (day_analyzed, day_results).
Proof.
  assert (H : analyze_data day_table = Ok (day_analyzed, day_results))
    by (vm_compute; reflexivity).
  exact (conj H (analyze_data_again _ _ _ H)).
Defined.

(** ** The order of the keys *)

Lemma ascii_compare_trans (a b c : ascii) :
  Ascii.compare a b = Lt -> Ascii.compare b c = Lt -> Ascii.compare a c = Lt.
Proof.
  unfold Ascii.compare. rewrite !N.compare_lt_iff. apply N.lt_trans.
Qed.

Lemma string_compare_trans (a b c : string) :
  String.compare a b = Lt -> String.compare b c = Lt -> String.compare a c = Lt.
Proof.
  revert b c. induction a as [| x a IH]; intros [| y b] [| z c]; simpl;
    try discriminate; try reflexivity.
  destruct (Ascii.compare x y) eqn:Exy; try discriminate;
    destruct (Ascii.compare y z) eqn:Eyz; try discriminate; intros H1 H2.
  - apply Ascii.compare_eq_iff in Exy, Eyz. subst.
    rewrite (proj2 (N.compare_eq_iff _ _) eq_refl : Ascii.compare z z = Eq).
    eapply IH; eassumption.
  - apply Ascii.compare_eq_iff in Exy. subst. now rewrite Eyz.
  - apply Ascii.compare_eq_iff in Eyz. subst. now rewrite Exy.
  - now rewrite (ascii_compare_trans x y z Exy Eyz).
Qed.

Lemma key_compare_eq (a b : GroupKey) : key_compare a b = Eq -> a = b.
Proof.
  destruct a as [[a1 a2] a3], b as [[b1 b2] b3]. simpl.
  destruct (String.compare a1 b1) eqn:E1; try discriminate.
  destruct (String.compare a2 b2) eqn:E2; try discriminate.
  intros E3. apply String.compare_eq_iff in E1, E2, E3. now subst.
Qed.

Lemma key_compare_antisym (a b : GroupKey) :
  key_compare a b = CompOpp (key_compare b a).
Proof.
  destruct a as [[a1 a2] a3], b as [[b1 b2] b3]. simpl.
  rewrite (String.compare_antisym a1 b1), (String.compare_antisym a2 b2),
    (String.compare_antisym a3 b3).
  destruct (String.compare b1 a1); simpl; try reflexivity.
  destruct (String.compare b2 a2); simpl; reflexivity.
Qed.

Lemma key_compare_trans (a b c : GroupKey) :
  key_lt a b -> key_lt b c -> key_lt a c.
Proof.
  unfold key_lt.
  destruct a as [[a1 a2] a3], b as [[b1 b2] b3], c as [[c1 c2] c3]. simpl.
  destruct (String.compare a1 b1) eqn:E1; try discriminate;
    destruct (String.compare b1 c1) eqn:F1; try discriminate.
  - apply String.compare_eq_iff in E1, F1. subst. rewrite string_compare_refl.
    destruct (String.compare a2 b2) eqn:E2; try discriminate;
      destruct (String.compare b2 c2) eqn:F2; try discriminate.
    + apply String.compare_eq_iff in E2, F2. subst. rewrite string_compare_refl.
      apply string_compare_trans.
    + apply String.compare_eq_iff in E2. subst. now rewrite F2.
    + apply String.compare_eq_iff in F2. subst. now rewrite E2.
    + now rewrite (string_compare_trans _ _ _ E2 F2).
  - apply String.compare_eq_iff in E1. subst. now rewrite F1.
  - apply String.compare_eq_iff in F1. subst. now rewrite E1.
  - now rewrite (string_compare_trans _ _ _ E1 F1).
Qed.

Section SortedKeys.
Context {K : Type} (cmp : K -> K -> comparison).
Hypothesis cmp_eq : forall a b, cmp a b = Eq -> a = b.
Hypothesis cmp_refl : forall a, cmp a a = Eq.
Hypothesis cmp_antisym : forall a b, cmp a b = CompOpp (cmp b a).
Hypothesis cmp_trans : forall a b c, cmp a b = Lt -> cmp b c = Lt -> cmp a c = Lt.

Lemma key_eqb_eq (a b : K) : Pandas.key_eqb cmp a b = true <-> a = b.
Proof.
  unfold Pandas.key_eqb. split.
  - destruct (cmp a b) eqn:E; try discriminate. intros _. apply cmp_eq, E.
  - intros ->. now rewrite cmp_refl.
Qed.

Lemma insert_key_in (k : K) (ks : list K) (x : K) :
  x = k \/ In x ks -> In x (Pandas.insert_key cmp k ks).
Proof.
  induction ks as [| k' rest IH]; simpl.
  - intros [-> | []]. now left.
  - destruct (cmp k k') eqn:E; simpl.
    + apply cmp_eq in E. subst. intros [-> | H]; auto.
    + intros [-> | H]; auto.
    + intros [-> | [-> | H]]; auto.
Qed.

Lemma sorted_keys_in (ks : list K) (x : K) :
  In x ks -> In x (Pandas.sorted_keys cmp ks).
Proof.
  induction ks as [| k rest IH]; simpl; [auto |].
  intros [-> | H]; apply insert_key_in; auto.
Qed.

Lemma insert_key_sorted (k : K) (ks : list K) :
  StronglySorted (fun a b => cmp a b = Lt) ks ->
  StronglySorted (fun a b => cmp a b = Lt) (Pandas.insert_key cmp k ks).
Proof.
  induction 1 as [| k' rest Hs IH Hall]; simpl.
  - repeat constructor.
  - destruct (cmp k k') eqn:E.
    + constructor; assumption.
    + constructor; [constructor; assumption |].
      constructor; [exact E |].
      eapply Forall_impl; [| exact Hall]. simpl. intros c Hc.
      eapply cmp_trans; eassumption.
    + constructor; [exact IH |].
      apply Forall_forall. intros x Hx. apply insert_key_incl in Hx.
      destruct Hx as [-> | Hx].
      * rewrite cmp_antisym, E. reflexivity.
      * rewrite Forall_forall in Hall. auto.
Qed.

Lemma sorted_keys_sorted (ks : list K) :
  StronglySorted (fun a b => cmp a b = Lt) (Pandas.sorted_keys cmp ks).
Proof.
  induction ks as [| k rest IH]; simpl; [constructor |].
  apply insert_key_sorted, IH.
Qed.

Lemma sorted_no_dup (ks : list K) :
  StronglySorted (fun a b => cmp a b = Lt) ks -> NoDup ks.
Proof.
  induction 1 as [| k rest Hs IH Hall]; constructor; [| exact IH].
  intros Hin. rewrite Forall_forall in Hall. specialize (Hall k Hin).
  rewrite cmp_refl in Hall. discriminate.
Qed.

(** Each row is counted in the group of its key and in no other. *)
Lemma count_in_one_group (x : K) (ks : list K) :
  NoDup ks -> In x ks ->
  list_sum (map (fun k => if Pandas.key_eqb cmp x k then 1 else 0)%nat ks) = 1%nat.
Proof.
  induction 1 as [| k rest Hn Hnd IH]; simpl; [contradiction |].
  intros [-> | Hin].
  - rewrite (proj2 (key_eqb_eq x x) eq_refl).
    assert (Z : list_sum (map (fun k => if Pandas.key_eqb cmp x k then 1 else 0)%nat rest) = 0%nat).
    { clear IH Hnd. induction rest as [| k rest IH]; simpl; [reflexivity |].
      destruct (Pandas.key_eqb cmp x k) eqn:E.
      - apply key_eqb_eq in E. subst. exfalso. apply Hn. now left.
      - apply IH. intros C. apply Hn. now right. }
    rewrite Z. reflexivity.
  - destruct (Pandas.key_eqb cmp x k) eqn:E.
    + apply key_eqb_eq in E. subst. contradiction.
    + simpl. apply IH, Hin.
Qed.

Lemma groups_partition {A : Type} (key : A -> K) (f : A -> bool)
    (ks : list K) (l : list A) :
  NoDup ks -> (forall a, In a l -> In (key a) ks) ->
  list_sum
    (map (fun k => List.length (filter f (filter (fun a => Pandas.key_eqb cmp (key a) k) l))) ks)
  = List.length (filter f l).
Proof.
  intros Hnd. induction l as [| a rest IH]; intros Hin; simpl.
  - clear. induction ks as [| k ks IHk]; simpl; [reflexivity | exact IHk].
  - assert (E : forall k,
        List.length (filter f (if Pandas.key_eqb cmp (key a) k
                               then a :: filter (fun a0 => Pandas.key_eqb cmp (key a0) k) rest
                               else filter (fun a0 => Pandas.key_eqb cmp (key a0) k) rest))
        = ((if Pandas.key_eqb cmp (key a) k then (if f a then 1 else 0) else 0)
           + List.length (filter f (filter (fun a0 => Pandas.key_eqb cmp (key a0) k) rest)))%nat).
    { intros k. destruct (Pandas.key_eqb cmp (key a) k); simpl; [| reflexivity].
      destruct (f a); reflexivity. }
    rewrite (map_ext _ _ E). clear E.
    assert (S : forall (g h : K -> nat) (xs : list K),
               list_sum (map (fun k => (g k + h k)%nat) xs)
               = (list_sum (map g xs) + list_sum (map h xs))%nat).
    { intros g h xs. induction xs as [| x xs IHx]; simpl; [reflexivity | lia]. }
    rewrite S, IH by (intros b Hb; apply Hin; now right).
    assert (C : list_sum (map (fun k => if Pandas.key_eqb cmp (key a) k
                                        then (if f a then 1 else 0) else 0)%nat ks)
                = (if f a then 1 else 0)%nat).
    { destruct (f a).
      - apply count_in_one_group; [exact Hnd | apply Hin; now left].
      - clear. induction ks as [| k ks IHk]; simpl; [reflexivity |].
        destruct (Pandas.key_eqb cmp (key a) k); exact IHk. }
    rewrite C. destruct (f a); reflexivity.
Qed.
End SortedKeys.

Lemma select_map_filter {A : Type} (p : A -> bool) (l : list A) :
  Pandas.select (map p l) l = filter p l.
Proof.
  induction l as [| a rest IH]; simpl; [reflexivity |].
  destruct (p a); now rewrite IH.
Qed.

Lemma Forall2_map_eq {A B C : Type} (f : A -> C) (g : B -> C) (l : list A) (l' : list B) :
  Forall2 (fun a b => f a = g b) l l' -> map f l = map g l'.
Proof. induction 1; simpl; congruence. Qed.

(** The rows of the group of key [k]. *)
Lemma groupby_key_rows (df : DataFrame) :
  map (fun e => (fst e, rows (snd e))) (groupby_key df)
  = map (fun k => (k, filter (fun r => Pandas.key_eqb key_compare (group_key r) k) (rows df)))
      (Pandas.sorted_keys key_compare (map group_key (rows df))).
Proof.
  unfold groupby_key. rewrite map_map. apply map_ext. intros k. simpl.
  now rewrite select_map_filter.
Qed.

Lemma group_keys_no_dup (df : DataFrame) :
  NoDup (Pandas.sorted_keys key_compare (map group_key (rows df))).
Proof.
  apply (sorted_no_dup key_compare key_compare_refl).
  apply (sorted_keys_sorted key_compare key_compare_antisym).
  intros a b c. apply key_compare_trans.
Qed.

Lemma groups_count (df : DataFrame) (f : UnifiedRow -> bool) :
  list_sum (map (fun e => List.length (filter f (rows (snd e)))) (groupby_key df))
  = List.length (filter f (rows df)).
Proof.
  transitivity
    (list_sum (map (fun e => List.length (filter f (snd e)))
                 (map (fun e => (fst e, rows (snd e))) (groupby_key df)))).
  { rewrite map_map. reflexivity. }
  rewrite groupby_key_rows, map_map. simpl.
  apply (groups_partition key_compare key_compare_eq key_compare_refl).
  - apply group_keys_no_dup.
  - intros r Hr. apply (sorted_keys_in key_compare key_compare_eq key_compare_refl), in_map, Hr.
Qed.

(** X5.  [results_df] has one row for each (city, district, date) that
    occurs in the table and no other row, and its rows are in ascending
    order of (city, district, date). *)
Theorem one_summary_per_key (df df' : DataFrame) (results : list Summary) :
  analyze_data df = Ok (df', results) ->
  (forall k, In k (map summary_key results) <->
             exists r, In r (rows df) /\ group_key r = k) /\
  NoDup (map summary_key results) /\
  StronglySorted key_lt (map summary_key results).
Proof.
  intros H. apply analyze_data_ok in H. destruct H as (hs & _ & Edf & _ & H).
  assert (Er : rows df' = rows df) by (rewrite Edf; reflexivity).
  assert (E : map summary_key results
              = Pandas.sorted_keys key_compare (map group_key (rows df))).
  { rewrite <- Er.
    transitivity (map fst (groupby_key df')).
    - symmetry. apply Forall2_map_eq. eapply Forall2_impl; [| exact H].
      intros [k g] s Hs. apply summarize_ok in Hs.
      destruct Hs as (? & ? & ? & ? & _ & _ & _ & _ & Hk & _). simpl. now rewrite <- Hk.
    - unfold groupby_key. rewrite map_map. simpl. apply map_id. }
  rewrite E. split; [| split].
  - intros k. split.
    + intros Hk. apply sorted_keys_incl, in_map_iff in Hk.
      destruct Hk as (r & Hr & Hin). eauto.
    + intros (r & Hin & <-).
      apply (sorted_keys_in key_compare key_compare_eq key_compare_refl), in_map, Hin.
  - rewrite <- Er. apply group_keys_no_dup.
  - apply (sorted_keys_sorted key_compare key_compare_antisym).
    intros a b c. apply key_compare_trans.
Qed.

Lemma one_summary_per_key_witness :
  analyze_data day_table = Ok (day_analyzed, day_results) /\
  NoDup (map summary_key day_results) /\
  StronglySorted key_lt (map summary_key day_results).
Proof.
  assert (H : analyze_data day_table = Ok (day_analyzed, day_results))
    by (vm_compute; reflexivity).
  exact (conj H (proj2 (one_summary_per_key _ _ _ H))).
Defined.

(** X6.  The groups divide the table: their row counts add up to the number
    of rows of the table, and the violations of the summaries add up to the
    number of rows of the table whose consumption is above their
    threshold. *)
Theorem summaries_account_for_every_row (df df' : DataFrame) (results : list Summary) :
  analyze_data df = Ok (df', results) ->
  list_sum (map (fun e => List.length (rows (snd e))) (groupby_key df'))
    = List.length (rows df) /\
  list_sum (map violations results) = List.length (filter is_violation (rows df)).
Proof.
  intros H. pose proof (analyze_data_groups _ _ _ H) as G.
  apply analyze_data_ok in H. destruct H as (hs & _ & Edf & _ & _).
  assert (Er : rows df' = rows df) by (rewrite Edf; reflexivity).
  rewrite <- Er. split.
  - assert (T : forall l : list UnifiedRow, filter (fun _ => true) l = l).
    { induction l as [| r rs IH]; simpl; congruence. }
    transitivity (List.length (filter (fun _ : UnifiedRow => true) (rows df')));
      [| now rewrite T].
    rewrite <- (groups_count df' (fun _ => true)).
    f_equal. apply map_ext. intros e. now rewrite T.
  - rewrite <- (groups_count df' is_violation). f_equal.
    symmetry. apply Forall2_map_eq. eapply Forall2_impl; [| exact G].
    intros [k g] s (_ & (hs' & _ & _ & Hv) & Hs). simpl in *.
    apply summarize_ok in Hs.
    destruct Hs as (? & ? & ? & vs & _ & _ & _ & Hv' & _ & _ & Hn & _).
    rewrite Hv in Hv'. injection Hv' as <-.
    rewrite Hn. symmetry. apply filter_map_comm.
Qed.

Lemma summaries_account_for_every_row_witness :
  analyze_data day_table = Ok (day_analyzed, day_results) /\
  list_sum (map violations day_results)
    = List.length (filter is_violation (rows day_table)).
Proof.
  assert (H : analyze_data day_table = Ok (day_analyzed, day_results))
    by (vm_compute; reflexivity).
  exact (conj H (proj2 (summaries_account_for_every_row _ _ _ H))).
Defined.

(** ** The consumption statistics of a group *)

Lemma min_none (col : list Pandas.cell) :
  Pandas.min col = None <-> Pandas.count col = 0%nat.
Proof.
  induction col as [| [v |] rest IH]; simpl.
  - tauto.
  - destruct (Pandas.min rest); split; discriminate.
  - exact IH.
Qed.

Lemma max_none (col : list Pandas.cell) :
  Pandas.max col = None <-> Pandas.count col = 0%nat.
Proof.
  induction col as [| [v |] rest IH]; simpl.
  - tauto.
  - destruct (Pandas.max rest); split; discriminate.
  - exact IH.
Qed.

Lemma min_least (col : list Pandas.cell) (m : Q) :
  Pandas.min col = Some m ->
  In (Some m) col /\ forall v, In (Some v) col -> m <= v.
Proof.
  revert m. induction col as [| [v |] rest IH]; simpl; intros m H.
  - discriminate.
  - destruct (Pandas.min rest) as [m' |] eqn:E.
    + destruct (IH m' eq_refl) as [Hin Hle].
      destruct (Qle_bool v m') eqn:C; injection H as <-.
      * apply Qle_bool_iff in C. split; [now left |].
        intros w [Hw | Hw]; [injection Hw as <-; lra |].
        specialize (Hle w Hw). lra.
      * apply Qle_bool_false in C. split; [now right |].
        intros w [Hw | Hw]; [injection Hw as <-; lra | auto].
    + injection H as <-. split; [now left |].
      intros w [Hw | Hw]; [injection Hw as <-; lra |].
      exfalso. apply min_none in E. clear -E Hw.
      induction rest as [| [x |] rest IH]; simpl in *; try contradiction; try discriminate.
      destruct Hw as [Hw | Hw]; [discriminate | auto].
  - destruct (IH m H) as [Hin Hle]. split; [now right |].
    intros w [Hw | Hw]; [discriminate | auto].
Qed.

Lemma max_greatest (col : list Pandas.cell) (m : Q) :
  Pandas.max col = Some m ->
  In (Some m) col /\ forall v, In (Some v) col -> v <= m.
Proof.
  revert m. induction col as [| [v |] rest IH]; simpl; intros m H.
  - discriminate.
  - destruct (Pandas.max rest) as [m' |] eqn:E.
    + destruct (IH m' eq_refl) as [Hin Hle].
      destruct (Qle_bool m' v) eqn:C; injection H as <-.
      * apply Qle_bool_iff in C. split; [now left |].
        intros w [Hw | Hw]; [injection Hw as <-; lra |].
        specialize (Hle w Hw). lra.
      * apply Qle_bool_false in C. split; [now right |].
        intros w [Hw | Hw]; [injection Hw as <-; lra | auto].
    + injection H as <-. split; [now left |].
      intros w [Hw | Hw]; [injection Hw as <-; lra |].
      exfalso. apply max_none in E. clear -E Hw.
      induction rest as [| [x |] rest IH]; simpl in *; try contradiction; try discriminate.
      destruct Hw as [Hw | Hw]; [discriminate | auto].
  - destruct (IH m H) as [Hin Hle]. split; [now right |].
    intros w [Hw | Hw]; [discriminate | auto].
Qed.

Lemma sum_between (col : list Pandas.cell) (lo hi : Q) :
  (forall v, In (Some v) col -> lo <= v /\ v <= hi) ->
  inject_Z (Z.of_nat (Pandas.count col)) * lo <= Pandas.sum col /\
  Pandas.sum col <= inject_Z (Z.of_nat (Pandas.count col)) * hi.
Proof.
  induction col as [| [v |] rest IH]; intros H.
  - simpl. change (inject_Z 0) with 0. lra.
  - destruct IH as [L U]; [intros w Hw; apply H; now right |].
    destruct (H v (or_introl eq_refl)) as [Lv Uv].
    change (Pandas.count (Some v :: rest)) with (S (Pandas.count rest)).
    change (Pandas.sum (Some v :: rest)) with (v + Pandas.sum rest).
    rewrite Nat2Z.inj_succ, <- Z.add_1_r, inject_Z_plus.
    change (inject_Z 1) with 1. lra.
  - apply IH. intros w Hw. apply H. now right.
Qed.

Lemma mean_some (col : list Pandas.cell) (a : Q) :
  Pandas.mean col = Some a ->
  a = Pandas.sum col / inject_Z (Z.of_nat (Pandas.count col)) /\
  Pandas.count col <> 0%nat.
Proof.
  unfold Pandas.mean. destruct (Pandas.count col) eqn:E; [discriminate |].
  intros H. injection H as <-. split; [reflexivity | discriminate].
Qed.

Lemma mean_between (col : list Pandas.cell) (lo hi a : Q) :
  (forall v, In (Some v) col -> lo <= v /\ v <= hi) ->
  Pandas.mean col = Some a -> lo <= a /\ a <= hi.
Proof.
  intros H Ha. apply mean_some in Ha. destruct Ha as [-> N].
  destruct (sum_between col lo hi H) as [L U].
  assert (P : 0 < inject_Z (Z.of_nat (Pandas.count col))).
  { change 0 with (inject_Z 0). rewrite <- Zlt_Qlt. lia. }
  split.
  - apply Qle_shift_div_l; [exact P | lra].
  - apply Qle_shift_div_r; [exact P | lra].
Qed.

Lemma summarize_stats (key : GroupKey) (group : DataFrame) (s : Summary) :
  summarize (key, group) = Ok s ->
  avg_consumption s = Pandas.mean (map consumption_kwh (rows group)) /\
  min_consumption s = Pandas.min (map consumption_kwh (rows group)) /\
  max_consumption s = Pandas.max (map consumption_kwh (rows group)).
Proof.
  destruct key as [[c d] dt]. unfold summarize. intros H.
  apply bind_ok in H. destruct H as (sums & _ & H).
  apply bind_ok in H. destruct H as (h & _ & H).
  apply bind_ok in H. destruct H as (crit & _ & H).
  apply bind_ok in H. destruct H as (vs & _ & H).
  injection H as <-. simpl. auto.
Qed.

(** X7.  For every group: when some consumption value of the group is not
    missing, the minimum and the maximum of the summary are values of the
    group, every value of the group lies between them, and so does the
    average; when all are missing, the three statistics are missing. *)
Theorem average_between_min_and_max (df df' : DataFrame) (results : list Summary) :
  analyze_data df = Ok (df', results) ->
  Forall2
    (fun entry s =>
       let col := map consumption_kwh (rows (snd entry)) in
       (Pandas.count col = 0%nat ->
          avg_consumption s = None /\ min_consumption s = None /\
          max_consumption s = None) /\
       (Pandas.count col <> 0%nat ->
          exists lo avg hi,
            min_consumption s = Some lo /\ avg_consumption s = Some avg /\
            max_consumption s = Some hi /\
            In (Some lo) col /\ In (Some hi) col /\
            (forall v, In (Some v) col -> lo <= v /\ v <= hi) /\
            lo <= avg /\ avg <= hi))
    (groupby_key df') results.
Proof.
  intros H. apply analyze_data_ok in H. destruct H as (hs & _ & _ & _ & H).
  eapply Forall2_impl; [| exact H]. clear. intros [key g] s Hs. simpl.
  apply summarize_stats in Hs. destruct Hs as (-> & -> & ->).
  set (col := map consumption_kwh (rows g)). split.
  - intros Z. split; [| split].
    + unfold Pandas.mean. now rewrite Z.
    + apply min_none, Z.
    + apply max_none, Z.
  - intros N.
    destruct (Pandas.min col) as [lo |] eqn:Emin;
      [| apply min_none in Emin; contradiction].
    destruct (Pandas.max col) as [hi |] eqn:Emax;
      [| apply max_none in Emax; contradiction].
    destruct (Pandas.mean col) as [avg |] eqn:Emean.
    2:{ unfold Pandas.mean in Emean. destruct (Pandas.count col); [contradiction | discriminate]. }
    destruct (min_least col lo Emin) as [Il Hl].
    destruct (max_greatest col hi Emax) as [Ih Hh].
    assert (B : forall v, In (Some v) col -> lo <= v /\ v <= hi) by (intros v Hv; split; auto).
    destruct (mean_between col lo hi avg B Emean) as [L U].
    exists lo, avg, hi. repeat split; auto; apply B; assumption.
Qed.

Lemma average_between_min_and_max_witness :
  analyze_data threshold_table = Ok (threshold_analyzed, threshold_results) /\
  Forall2
    (fun entry s =>
       let col := map consumption_kwh (rows (snd entry)) in
       (Pandas.count col = 0%nat ->
          avg_consumption s = None /\ min_consumption s = None /\
          max_consumption s = None) /\
       (Pandas.count col <> 0%nat ->
          exists lo avg hi,
            min_consumption s = Some lo /\ avg_consumption s = Some avg /\
            max_consumption s = Some hi /\
            In (Some lo) col /\ In (Some hi) col /\
            (forall v, In (Some v) col -> lo <= v /\ v <= hi) /\
            lo <= avg /\ avg <= hi))
    (groupby_key threshold_analyzed) threshold_results.
Proof.
  assert (H : analyze_data threshold_table = Ok (threshold_analyzed, threshold_results))
    by (vm_compute; reflexivity).
  exact (conj H (average_between_min_and_max _ _ _ H)).
Defined.

(** * Further properties of the loader *)

Lemma impute_column (df : list Reading) :
  non_missing df <> [] ->
  consumption_column (impute df)
  = map (Pandas.fillna (Some (arithmetic_mean (non_missing df)))) (consumption_column df) /\
  map csv_household_id (impute df) = map csv_household_id df /\
  map csv_timestamp (impute df) = map csv_timestamp df.
Proof.
  intros H. rewrite (proj1 (impute_cases df) H). unfold consumption_column.
  rewrite !map_map. repeat split; apply map_ext; intros r; unfold fill_missing;
    destruct (csv_consumption_kwh r) eqn:E; simpl; auto.
Qed.

Lemma sum_fillna (m : Q) (col : list Pandas.cell) :
  Pandas.sum (map (Pandas.fillna (Some m)) col)
  == Pandas.sum col + inject_Z (Z.of_nat (List.length col - Pandas.count col)) * m.
Proof.
  induction col as [| [v |] rest IH].
  - simpl. change (inject_Z 0) with 0. lra.
  - change (Pandas.sum (map (Pandas.fillna (Some m)) (Some v :: rest)))
      with (v + Pandas.sum (map (Pandas.fillna (Some m)) rest)).
    change (Pandas.sum (Some v :: rest)) with (v + Pandas.sum rest).
    change (List.length (Some v :: rest) - Pandas.count (Some v :: rest))%nat
      with (List.length rest - Pandas.count rest)%nat.
    rewrite IH. lra.
  - assert (L : (Pandas.count rest <= List.length rest)%nat).
    { clear. induction rest as [| [x |] rest IH]; simpl; lia. }
    change (Pandas.sum (map (Pandas.fillna (Some m)) (None :: rest)))
      with (m + Pandas.sum (map (Pandas.fillna (Some m)) rest)).
    change (Pandas.sum (None :: rest)) with (Pandas.sum rest).
    change (Pandas.count (None :: rest)) with (Pandas.count rest).
    change (List.length (None :: rest) - Pandas.count rest)%nat
      with (S (List.length rest) - Pandas.count rest)%nat.
    rewrite Nat.sub_succ_l by exact L.
    rewrite IH, Nat2Z.inj_succ, <- Z.add_1_r, inject_Z_plus.
    change (inject_Z 1) with 1. lra.
Qed.

Lemma count_fillna (m : Q) (col : list Pandas.cell) :
  Pandas.count (map (Pandas.fillna (Some m)) col) = List.length col.
Proof.
  induction col as [| [v |] rest IH]; simpl; congruence.
Qed.

Lemma count_le_length (col : list Pandas.cell) :
  (Pandas.count col <= List.length col)%nat.
Proof. induction col as [| [x |] rest IH]; simpl; lia. Qed.

Lemma mean_fillna (col : list Pandas.cell) (m : Q) :
  Pandas.mean col = Some m ->
  exists m', Pandas.mean (map (Pandas.fillna (Some m)) col) = Some m' /\ m' == m.
Proof.
  intros H. apply mean_some in H. destruct H as [Em N].
  unfold Pandas.mean at 1. rewrite count_fillna.
  pose proof (count_le_length col) as L.
  destruct (List.length col) as [| n] eqn:El; [lia |].
  eexists. split; [reflexivity |]. rewrite <- El, sum_fillna.
  assert (P : 0 < inject_Z (Z.of_nat (Pandas.count col))).
  { change 0 with (inject_Z 0). rewrite <- Zlt_Qlt. lia. }
  assert (P' : 0 < inject_Z (Z.of_nat (List.length col))).
  { change 0 with (inject_Z 0). rewrite <- Zlt_Qlt. lia. }
  assert (D : inject_Z (Z.of_nat (List.length col - Pandas.count col))
              == inject_Z (Z.of_nat (List.length col)) - inject_Z (Z.of_nat (Pandas.count col))).
  { rewrite Nat2Z.inj_sub by lia. unfold Z.sub. rewrite inject_Z_plus, inject_Z_opp. lra. }
  rewrite D. rewrite Em.
  set (S := Pandas.sum col) in *.
  set (C := inject_Z (Z.of_nat (Pandas.count col))) in *.
  set (N' := inject_Z (Z.of_nat (List.length col))) in *.
  field. split; lra.
Qed.

(** X8.  Filling the missing values of a tabular file keeps its rows, their
    household and timestamp, and the values that are present; it leaves the
    mean of the consumption column where it was, and every value of the
    filled column lies between the smallest and the largest value that was
    present. *)
Theorem imputation_keeps_mean_and_range (df : list Reading) :
  non_missing df <> [] ->
  map csv_household_id (impute df) = map csv_household_id df /\
  map csv_timestamp (impute df) = map csv_timestamp df /\
  (exists m m',
     Pandas.mean (consumption_column df) = Some m /\
     Pandas.mean (consumption_column (impute df)) = Some m' /\ m' == m /\
     consumption_column (impute df) = map (Pandas.fillna (Some m)) (consumption_column df)) /\
  (exists lo hi,
     Pandas.min (consumption_column df) = Some lo /\
     Pandas.max (consumption_column df) = Some hi /\
     Forall (fun c => exists v, c = Some v /\ lo <= v /\ v <= hi)
       (consumption_column (impute df))).
Proof.
  intros H. destruct (impute_column df H) as (Ec & Eh & Et).
  split; [exact Eh |]. split; [exact Et |].
  pose proof (mean_non_missing df) as Em. fold (consumption_column df) in Em.
  destruct (non_missing df) as [| v vs] eqn:Ev; [contradiction |]. rewrite <- Ev in *.
  set (m := arithmetic_mean (non_missing df)) in *.
  destruct (mean_some _ _ Em) as [_ N].
  split.
  - destruct (mean_fillna _ _ Em) as (m' & Em' & E).
    exists m, m'. rewrite Ec. auto.
  - destruct (Pandas.min (consumption_column df)) as [lo |] eqn:Emin;
      [| apply min_none in Emin; contradiction].
    destruct (Pandas.max (consumption_column df)) as [hi |] eqn:Emax;
      [| apply max_none in Emax; contradiction].
    destruct (min_least _ _ Emin) as [_ Hl].
    destruct (max_greatest _ _ Emax) as [_ Hh].
    assert (B : forall v, In (Some v) (consumption_column df) -> lo <= v /\ v <= hi)
      by (intros w Hw; split; auto).
    exists lo, hi. split; [reflexivity |]. split; [reflexivity |].
    rewrite Ec. apply Forall_map, Forall_forall. intros [w |] Hw; simpl.
    + exists w. split; [reflexivity | apply B, Hw].
    + exists m. split; [reflexivity | apply (mean_between _ lo hi m B Em)].
Qed.

Lemma imputation_keeps_mean_and_range_witness :
  non_missing gap_table <> [] /\
  map csv_timestamp (impute gap_table) = map csv_timestamp gap_table.
Proof.
  assert (H : non_missing gap_table <> []) by discriminate.
  exact (conj H (proj1 (proj2 (imputation_keeps_mean_and_range gap_table H)))).
Defined.

Lemma fold_left_ext_in {A S : Type} (f g : S -> A -> S) (l : list A) (st : S) :
  (forall s a, In a l -> f s a = g s a) -> fold_left f l st = fold_left g l st.
Proof.
  revert st. induction l as [| a rest IH]; intros st H; simpl; [reflexivity |].
  rewrite (H st a (or_introl eq_refl)). apply IH. intros s b Hb. apply H. now right.
Qed.

(** X9.  [load_and_merge_data] reads the listing of the metadata directory
    and the tabular files the district entries of the parsed metadata files
    name, and nothing else: two directory trees that agree on those give the
    same warnings and the same result. *)
Theorem load_reads_only_named_files (fs fs' : FileSystem) :
  json_dir fs = json_dir fs' ->
  (forall files name m d,
     json_dir fs = Some files -> In (name, Parsed m) files ->
     In d (get (meta_districts m) []) ->
     csv_dir fs (expected_csv m d) = csv_dir fs' (expected_csv m d)) ->
  load_and_merge_data fs = load_and_merge_data fs'.
Proof.
  intros Ej Hc. unfold load_and_merge_data. rewrite <- Ej.
  destruct (json_dir fs) as [files |] eqn:E; [| reflexivity].
  assert (F : fold_left (load_json fs) files {| log := []; all_data := [] |}
              = fold_left (load_json fs') files {| log := []; all_data := [] |}).
  { apply fold_left_ext_in. intros st [name [| m]] Hin; [reflexivity |].
    unfold load_json. simpl. apply fold_left_ext_in. intros st' d Hd.
    unfold load_district. fold (expected_csv m d).
    now rewrite (Hc files name m d eq_refl Hin Hd). }
  now rewrite F.
Qed.

Lemma load_reads_only_named_files_witness :
  json_dir sample_fs = json_dir sample_fs /\
  load_and_merge_data sample_fs
  = load_and_merge_data
      {| json_dir := json_dir sample_fs;
         csv_dir := fun name =>
           if String.eqb name "district_City9_101_2025-09-10.csv"
           then Some EmptyDataError else csv_dir sample_fs name |}.
Proof.
  split; [reflexivity |].
  apply load_reads_only_named_files; [reflexivity |].
  intros files name m d E Hin Hd. injection E as <-.
  destruct Hin as [Hin | [Hin | []]]; [discriminate |].
  injection Hin as _ <-.
  destruct Hd as [<- | [<- | [<- | []]]]; reflexivity.
Defined.

Lemma impute_length_ids (df : list Reading) :
  map (fun r => (csv_household_id r, csv_timestamp r)) (impute df)
  = map (fun r => (csv_household_id r, csv_timestamp r)) df.
Proof.
  unfold impute. destruct (0 <? _)%nat; [| reflexivity].
  rewrite map_map. apply map_ext. intros r. reflexivity.
Qed.

(** X10.  The unified table holds the readings of the tabular files that
    merge, each once and with its household and timestamp unchanged: file
    after file in the order of the listing of the metadata directory, within
    a metadata file in the order of its district entries, within a tabular
    file in the order of its rows. *)
Theorem unified_table_keeps_readings (fs : FileSystem) (df : DataFrame) :
  snd (load_and_merge_data fs) = Ok df ->
  exists files,
    json_dir fs = Some files /\
    map (fun r => (household_id r, timestamp r)) (rows df)
    = flat_map (readings_of_file fs) files.
Proof.
  intros H. apply load_and_merge_data_ok in H. destruct H as (files & Ef & _ & ->).
  exists files. split; [exact Ef |]. simpl.
  destruct (load_files fs files) as [_ ->]. clear Ef.
  induction files as [| [name j] rest IH]; simpl; [reflexivity |].
  rewrite concat_app, map_app, IH. f_equal. clear IH.
  unfold readings_of_file. destruct j as [| m]; simpl; [reflexivity |].
  destruct (load_json_parsed fs name m) as [_ E]. rewrite E. clear E.
  induction (get (meta_districts m) []) as [| d ds IHd]; simpl; [reflexivity |].
  rewrite concat_app, map_app, IHd. f_equal. clear IHd.
  unfold load_district. fold (expected_csv m d).
  destruct (csv_dir fs (expected_csv m d)) as [[| t] |]; simpl; try reflexivity.
  rewrite app_nil_r, map_map. simpl. rewrite <- (impute_length_ids t).
  reflexivity.
Qed.

Lemma unified_table_keeps_readings_witness :
  snd (load_and_merge_data sample_fs) = Ok sample_loaded /\
  exists files,
    json_dir sample_fs = Some files /\
    map (fun r => (household_id r, timestamp r)) (rows sample_loaded)
    = flat_map (readings_of_file sample_fs) files.
Proof.
  assert (H : snd (load_and_merge_data sample_fs) = Ok sample_loaded)
    by (vm_compute; reflexivity).
  exact (conj H (unified_table_keeps_readings _ _ H)).
Defined.

(** * The visualizer and the driver *)

Lemma Forall2_compose {A B C : Type} (R : A -> B -> Prop) (T : A -> C -> Prop)
    (l : list A) (bs : list B) (cs : list C) :
  Forall2 R l bs -> Forall2 T l cs ->
  Forall2 (fun b c => exists a, R a b /\ T a c) bs cs.
Proof.
  intros HR. revert cs. induction HR; intros cs HT; inversion HT; subst;
    constructor; eauto.
Qed.

(** X11.  The chart of a group marks the peak hour of its summary:
    [visualize_results], given the results and the table [analyze_data] has
    left, returns one trend per summary, in the same order, for the same
    (city, district, date) and with the hour the summary names. *)
Theorem trend_marks_summary_peak_hour (df df' : DataFrame) (results : list Summary) :
  analyze_data df = Ok (df', results) ->
  exists bars trends,
    visualize_results results df' = Ok (bars, trends) /\
    Forall2
      (fun s t =>
         fst (fst t) = summary_key s /\
         peak_hour s = format_02d (snd t) ++ ":00" /\
         Pandas.idxmax (snd (fst t)) = Ok (snd t))
      results trends.
Proof.
  intros H. apply analyze_data_ok in H. destruct H as (hs & _ & _ & Ha & H).
  destruct (visualize_results_total results df' Ha) as ([bars trends] & Hv).
  exists bars, trends. split; [exact Hv |].
  unfold visualize_results in Hv. apply bind_ok in Hv.
  destruct Hv as (ts & Hts & Hv). injection Hv as _ <-.
  apply for_each_ok in Hts.
  eapply Forall2_impl; [| exact (Forall2_compose _ _ _ _ _ H Hts)].
  intros s [[k sums] h] ([key g] & Hs & Ht). simpl.
  apply summarize_ok in Hs.
  destruct Hs as (sums' & h' & ? & ? & Hsum & Hidx & _ & _ & Hk & Hp & _).
  unfold trend in Ht. rewrite Hsum in Ht. simpl in Ht. rewrite Hidx in Ht. simpl in Ht.
  injection Ht as <- <- <-. unfold summary_key. auto.
Qed.

Lemma trend_marks_summary_peak_hour_witness :
  analyze_data tie_table = Ok (tie_analyzed, tie_results) /\
  exists bars trends,
    visualize_results tie_results tie_analyzed = Ok (bars, trends) /\
    Forall2
      (fun s t =>
         fst (fst t) = summary_key s /\
         peak_hour s = format_02d (snd t) ++ ":00" /\
         Pandas.idxmax (snd (fst t)) = Ok (snd t))
      tie_results trends.
Proof.
  assert (H : analyze_data tie_table = Ok (tie_analyzed, tie_results))
    by (vm_compute; reflexivity).
  exact (conj H (trend_marks_summary_peak_hour _ _ _ H)).
Defined.

Lemma analyze_data_raises (df : DataFrame) (e : exn) :
  for_each hour_of (map timestamp (rows df)) = Raise e ->
  analyze_data df = Raise e.
Proof.
  intros H. unfold analyze_data, assign_hour. now rewrite H.
Qed.

(** X12.  The driver fails only where the loader raises or a timestamp
    cannot be read.  It prints what the loader prints; an exception of the
    loader is its outcome; when the loader returns a table whose timestamps
    can all be read, the analysis and the visualization return as well; and
    when a timestamp cannot be read, the exception of reading it is the
    outcome. *)
Theorem main_fails_only_at_load_or_timestamp (fs : FileSystem) :
  fst (main fs) = fst (load_and_merge_data fs) /\
  (forall e, snd (load_and_merge_data fs) = Raise e -> snd (main fs) = Raise e) /\
  (forall data,
     snd (load_and_merge_data fs) = Ok data ->
     (forall hs,
        for_each hour_of (map timestamp (rows data)) = Ok hs ->
        exists data' summary charts,
          analyze_data data = Ok (data', summary) /\
          visualize_results summary data' = Ok charts /\
          snd (main fs) = Ok (summary, charts)) /\
     (forall e,
        for_each hour_of (map timestamp (rows data)) = Raise e ->
        snd (main fs) = Raise e)).
Proof.
  unfold main. destruct (load_and_merge_data fs) as [printed loaded_data]. simpl.
  split; [reflexivity |]. split.
  - intros e ->. reflexivity.
  - intros data ->. simpl. split.
    + intros hs Hhs.
      destruct (analyze_data_total data hs Hhs) as (data' & summary & Ha).
      pose proof Ha as Ha'. apply analyze_data_ok in Ha'.
      destruct Ha' as (_ & _ & _ & Hal & _).
      destruct (visualize_results_total summary data' Hal) as (charts & Hv).
      exists data', summary, charts. rewrite Ha. simpl. rewrite Hv. auto.
    + intros e He. now rewrite (analyze_data_raises data e He).
Qed.

Lemma main_fails_only_at_load_or_timestamp_witness :
  snd (load_and_merge_data sample_fs) = Ok sample_loaded /\
  exists hs data' summary charts,
    for_each hour_of (map timestamp (rows sample_loaded)) = Ok hs /\
    analyze_data sample_loaded = Ok (data', summary) /\
    visualize_results summary data' = Ok charts /\
    snd (main sample_fs) = Ok (summary, charts).
Proof.
  assert (H : snd (load_and_merge_data sample_fs) = Ok sample_loaded)
    by (vm_compute; reflexivity).
  assert (Hh : for_each hour_of (map timestamp (rows sample_loaded))
               = Ok [0%nat; 1%nat; 2%nat]) by (vm_compute; reflexivity).
  split; [exact H |].
  destruct (proj1 (proj2 (proj2 (main_fails_only_at_load_or_timestamp sample_fs))
                     sample_loaded H) _ Hh)
    as (data' & summary & charts & Ha & Hv & Hm).
  exists [0%nat; 1%nat; 2%nat], data', summary, charts. auto.
Defined.

Lemma assign_risk_level_label (score : Q) : In (assign_risk_level score) risk_levels.
Proof.
  unfold assign_risk_level, risk_levels.
  destruct (Qeq_bool score 0); [simpl; auto |].
  destruct (Qle_bool score 0.30); [simpl; auto |].
  destruct (Qle_bool score 0.60); simpl; auto.
Qed.

Lemma string_key_eqb (a b : string) :
  Pandas.key_eqb String.compare a b = String.eqb a b.
Proof.
  destruct (String.eqb a b) eqn:E.
  - apply String.eqb_eq in E. subst.
    apply (key_eqb_eq String.compare String.compare_eq_iff string_compare_refl).
    reflexivity.
  - destruct (Pandas.key_eqb String.compare a b) eqn:K; [| reflexivity].
    apply (key_eqb_eq String.compare String.compare_eq_iff string_compare_refl) in K.
    subst. rewrite String.eqb_refl in E. discriminate.
Qed.

Lemma risk_level_counts_total (group : list Summary) :
  Forall (fun s => In (risk_level s) risk_levels) group ->
  map fst (risk_level_counts group) = risk_levels /\
  list_sum (map snd (risk_level_counts group)) = List.length group.
Proof.
  intros H. split; [reflexivity |].
  unfold risk_level_counts. simpl.
  induction H as [| s rest Hs _ IH]; simpl; [reflexivity |].
  destruct Hs as [E | [E | [E | [E | []]]]]; rewrite <- E; simpl; lia.
Qed.

(** X13.  The risk level charts count every district once: for the results
    of [analyze_data], [visualize_results] draws one chart for each city
    that has a summary and for no other; each chart has the four levels in
    the fixed order; the bars of a city add up to the number of summaries of
    that city, and all bars together to the number of summaries. *)
Theorem risk_level_bars_count_every_summary (df df' : DataFrame) (results : list Summary) :
  analyze_data df = Ok (df', results) ->
  exists bars trends,
    visualize_results results df' = Ok (bars, trends) /\
    NoDup (map fst bars) /\
    (forall c, In c (map fst bars) <-> exists s, In s results /\ res_city s = c) /\
    Forall
      (fun bar =>
         map fst (snd bar) = risk_levels /\
         list_sum (map snd (snd bar))
         = List.length (filter (fun s => String.eqb (res_city s) (fst bar)) results))
      bars /\
    list_sum (map (fun bar => list_sum (map snd (snd bar))) bars) = List.length results.
Proof.
  intros H.
  assert (L : Forall (fun s => In (risk_level s) risk_levels) results).
  { pose proof (analyze_data_scores _ _ _ H) as S.
    eapply Forall2_Forall_r; [| exact S].
    intros e s (crit & _ & _ & _ & _ & ->). apply assign_risk_level_label. }
  apply analyze_data_ok in H. destruct H as (hs & _ & _ & Ha & _).
  destruct (visualize_results_total results df' Ha) as ([bars trends] & Hv).
  exists bars, trends. split; [exact Hv |].
  unfold visualize_results in Hv. apply bind_ok in Hv.
  destruct Hv as (ts & _ & Hv). injection Hv as <- _.
  set (cities := Pandas.sorted_keys String.compare (map res_city results)).
  assert (Sorted : StronglySorted (fun a b => String.compare a b = Lt) cities).
  { apply (sorted_keys_sorted String.compare String.compare_antisym string_compare_trans). }
  assert (Nd : NoDup cities)
    by (apply (sorted_no_dup String.compare string_compare_refl), Sorted).
  assert (Ef : map fst (map (fun '(city, group) => (city, risk_level_counts group))
                          (Pandas.groupby String.compare res_city results)) = cities).
  { unfold Pandas.groupby. rewrite !map_map. simpl. apply map_id. }
  assert (G : forall bar,
             In bar (map (fun '(city, group) => (city, risk_level_counts group))
                       (Pandas.groupby String.compare res_city results)) ->
             snd bar = risk_level_counts
                         (filter (fun s => String.eqb (res_city s) (fst bar)) results)).
  { intros bar Hb. apply in_map_iff in Hb. destruct Hb as ([c g] & <- & Hg).
    unfold Pandas.groupby in Hg. apply in_map_iff in Hg.
    destruct Hg as (c' & E & _). injection E as <- <-. simpl. f_equal.
    apply filter_ext. intros s. apply string_key_eqb. }
  assert (T : forall bar,
             In bar (map (fun '(city, group) => (city, risk_level_counts group))
                       (Pandas.groupby String.compare res_city results)) ->
             map fst (snd bar) = risk_levels /\
             list_sum (map snd (snd bar))
             = List.length (filter (fun s => String.eqb (res_city s) (fst bar)) results)).
  { intros bar Hb. rewrite (G bar Hb). apply risk_level_counts_total.
    rewrite Forall_forall in L. apply Forall_forall. intros s Hs.
    apply filter_In in Hs. apply L, Hs. }
  rewrite Ef. split; [exact Nd |]. split; [| split].
  - intros c. split.
    + intros Hc. apply sorted_keys_incl, in_map_iff in Hc.
      destruct Hc as (s & Hs & Hin). eauto.
    + intros (s & Hin & <-).
      apply (sorted_keys_in String.compare String.compare_eq_iff string_compare_refl).
      apply in_map, Hin.
  - apply Forall_forall. exact T.
  - rewrite (map_ext_in _ (fun bar => List.length
               (filter (fun s => String.eqb (res_city s) (fst bar)) results)))
      by (intros bar Hb; apply T, Hb).
    rewrite <- (map_map fst (fun c => List.length
               (filter (fun s => String.eqb (res_city s) c) results))).
    rewrite Ef.
    assert (F : forall l : list Summary, filter (fun _ => true) l = l).
    { induction l as [| x xs IH]; simpl; congruence. }
    transitivity (List.length (filter (fun _ : Summary => true) results));
      [| now rewrite F].
    rewrite <- (groups_partition String.compare String.compare_eq_iff string_compare_refl
                  res_city (fun _ => true) cities results Nd).
    + f_equal. apply map_ext. intros c. rewrite F. f_equal.
      apply filter_ext. intros s. symmetry. apply string_key_eqb.
    + intros s Hs.
      apply (sorted_keys_in String.compare String.compare_eq_iff string_compare_refl).
      apply in_map, Hs.
Qed.

Lemma risk_level_bars_count_every_summary_witness :
  analyze_data day_table = Ok (day_analyzed, day_results) /\
  exists bars trends,
    visualize_results day_results day_analyzed = Ok (bars, trends) /\
    list_sum (map (fun bar => list_sum (map snd (snd bar))) bars)
    = List.length day_results.
Proof.
  assert (H : analyze_data day_table = Ok (day_analyzed, day_results))
    by (vm_compute; reflexivity).
  destruct (risk_level_bars_count_every_summary _ _ _ H)
    as (bars & trends & Hv & _ & _ & _ & Hs).
  exact (conj H (ex_intro _ bars (ex_intro _ trends (conj Hv Hs)))).
Defined.

(** * The files the analysis writes *)

Lemma same_key_eq (a b : string * string) : same_key a b = true <-> a = b.
Proof.
  destruct a as [a1 a2], b as [b1 b2]. unfold same_key. simpl.
  rewrite andb_true_iff, !String.eqb_eq. split.
  - intros [-> ->]. reflexivity.
  - intros E. injection E as -> ->. auto.
Qed.

Lemma same_key_refl (a : string * string) : same_key a a = true.
Proof. now apply same_key_eq. Qed.

Example format_1f_exact_samples :
  map format_1f_exact [0; 12.5; 100 / 3; 100] = ["0.0"; "12.5"; "33.3"; "100.0"].
Proof. reflexivity. Qed.

Lemma same_key_sym (a b : string * string) : same_key a b = same_key b a.
Proof.
  destruct (same_key a b) eqn:E.
  - apply same_key_eq in E. subst. symmetry. apply same_key_refl.
  - destruct (same_key b a) eqn:E'; [| reflexivity].
    apply same_key_eq in E'. subst. rewrite same_key_refl in E. discriminate.
Qed.

Lemma setdefault_append_alerts (key k : string * string) (a : Alert) (d : CityReports) :
  alerts_of_key k (setdefault_append key a d)
  = if same_key key k then (alerts_of_key k d ++ [a])%list else alerts_of_key k d.
Proof.
  induction d as [| [k' alerts] rest IH]; simpl.
  - destruct (same_key key k); reflexivity.
  - destruct (same_key k' key) eqn:E1; simpl.
    + apply same_key_eq in E1. subst k'.
      destruct (same_key key k); reflexivity.
    + destruct (same_key k' k) eqn:E2; [| exact IH].
      apply same_key_eq in E2. subst k'. now rewrite same_key_sym, E1.
Qed.

Lemma setdefault_append_keys (key : string * string) (a : Alert) (d : CityReports) :
  map fst (setdefault_append key a d)
  = if existsb (fun k => same_key k key) (map fst d) then map fst d
    else (map fst d ++ [key])%list.
Proof.
  induction d as [| [k' alerts] rest IH]; simpl; [reflexivity |].
  destruct (same_key k' key); simpl; [reflexivity |].
  rewrite IH. destruct (existsb _ _); reflexivity.
Qed.

Lemma setdefault_append_no_dup (key : string * string) (a : Alert) (d : CityReports) :
  NoDup (map fst d) -> NoDup (map fst (setdefault_append key a d)).
Proof.
  intros H. rewrite setdefault_append_keys.
  destruct (existsb _ _) eqn:E; [exact H |].
  apply NoDup_app; [exact H | repeat constructor; intros [] | ].
  intros k Hk [Ek | []]. subst k.
  assert (C : existsb (fun k' => same_key k' key) (map fst d) = true).
  { apply existsb_exists. exists key. split; [exact Hk | apply same_key_refl]. }
  congruence.
Qed.

Lemma dict_entries (d : CityReports) :
  NoDup (map fst d) -> d = map (fun k => (k, alerts_of_key k d)) (map fst d).
Proof.
  induction d as [| [k alerts] rest IH]; simpl; intros H; [reflexivity |].
  apply NoDup_cons_iff in H. destruct H as [Hn Hnd]. rewrite same_key_refl. f_equal.
  rewrite IH at 1 by exact Hnd. apply map_ext_in. intros k' Hk'.
  destruct (same_key k k') eqn:E; [| reflexivity].
  apply same_key_eq in E. subst. contradiction.
Qed.

Section ReportFacts.
Variable format_1f : Q -> string.

Lemma city_reports_fold (results : list Summary) (d : CityReports) :
  let d' := fold_left
              (fun d s => setdefault_append (report_key s) (alert_of format_1f s) d)
              results d in
  (NoDup (map fst d) -> NoDup (map fst d')) /\
  (forall k, alerts_of_key k d'
             = (alerts_of_key k d
                ++ map (alert_of format_1f) (summaries_of k results))%list) /\
  (forall k, In k (map fst d') <->
             In k (map fst d) \/ exists s, In s results /\ report_key s = k).
Proof.
  revert d. induction results as [| s rest IH]; intros d; simpl.
  - split; [auto |]. split.
    + intros k. now rewrite app_nil_r.
    + intros k. split; [auto | intros [H | (s & [] & _)]; exact H].
  - destruct (IH (setdefault_append (report_key s) (alert_of format_1f s) d))
      as (Hnd & Hal & Hin).
    split; [| split].
    + intros H. apply Hnd, setdefault_append_no_dup, H.
    + intros k. rewrite Hal, setdefault_append_alerts. unfold summaries_of. simpl.
      destruct (same_key (report_key s) k); simpl; [| reflexivity].
      now rewrite <- app_assoc.
    + intros k. rewrite Hin, setdefault_append_keys. split.
      * intros [H | (s' & Hs' & E)]; [| right; eauto].
        destruct (existsb _ _); [auto |].
        apply in_app_or in H. destruct H as [H | [<- | []]]; [auto |].
        right. eauto.
      * intros [H | (s' & [<- | Hs'] & E)].
        -- left. destruct (existsb _ _); [exact H | apply in_or_app; auto].
        -- left. subst k. destruct (existsb _ _) eqn:Ex.
           ++ apply existsb_exists in Ex. destruct Ex as (k' & Hk' & Ek').
              apply same_key_eq in Ek'. now subst.
           ++ apply in_or_app. right. now left.
        -- right. eauto.
Qed.

(** The dict of the reports: one entry for each (city, date) of the
    results, with the alerts of the summaries of that city and date. *)
Lemma city_reports_entries (results : list Summary) :
  NoDup (map fst (city_reports format_1f results)) /\
  (forall k, In k (map fst (city_reports format_1f results)) <->
             exists s, In s results /\ report_key s = k) /\
  city_reports format_1f results
  = map (fun k => (k, map (alert_of format_1f) (summaries_of k results)))
      (map fst (city_reports format_1f results)).
Proof.
  destruct (city_reports_fold results []) as (Hnd & Hal & Hin).
  fold (city_reports format_1f results) in *. simpl in *.
  specialize (Hnd (NoDup_nil _)).
  split; [exact Hnd |]. split.
  - intros k. rewrite Hin. split; [intros [[] | H]; exact H | auto].
  - rewrite (dict_entries _ Hnd) at 1. apply map_ext. intros k. now rewrite Hal.
Qed.
End ReportFacts.

Section PartitionByKey.
Context {K A : Type} (eqb : K -> K -> bool) (key : A -> K).
Hypothesis eqb_eq : forall a b, eqb a b = true <-> a = b.

Lemma counted_in_one_key (x : K) (ks : list K) :
  NoDup ks -> In x ks ->
  list_sum (map (fun k => if eqb x k then 1 else 0)%nat ks) = 1%nat.
Proof.
  induction 1 as [| k rest Hn Hnd IH]; simpl; [contradiction |].
  intros [-> | Hin].
  - rewrite (proj2 (eqb_eq x x) eq_refl).
    assert (Z : list_sum (map (fun k => if eqb x k then 1 else 0)%nat rest) = 0%nat).
    { clear IH Hnd. induction rest as [| k rest IH]; simpl; [reflexivity |].
      destruct (eqb x k) eqn:E.
      - apply eqb_eq in E. subst. exfalso. apply Hn. now left.
      - apply IH. intros C. apply Hn. now right. }
    rewrite Z. reflexivity.
  - destruct (eqb x k) eqn:E.
    + apply eqb_eq in E. subst. contradiction.
    + simpl. apply IH, Hin.
Qed.

Lemma partition_by_key (ks : list K) (l : list A) :
  NoDup ks -> (forall a, In a l -> In (key a) ks) ->
  list_sum (map (fun k => List.length (filter (fun a => eqb (key a) k) l)) ks)
  = List.length l.
Proof.
  intros Hnd. induction l as [| a rest IH]; intros Hin; simpl.
  - clear. induction ks as [| k ks IHk]; simpl; [reflexivity | exact IHk].
  - assert (E : forall k,
        List.length (if eqb (key a) k
                     then a :: filter (fun a0 => eqb (key a0) k) rest
                     else filter (fun a0 => eqb (key a0) k) rest)
        = ((if eqb (key a) k then 1 else 0)
           + List.length (filter (fun a0 => eqb (key a0) k) rest))%nat).
    { intros k. destruct (eqb (key a) k); reflexivity. }
    rewrite (map_ext _ _ E). clear E.
    assert (S : forall (g h : K -> nat) (xs : list K),
               list_sum (map (fun k => (g k + h k)%nat) xs)
               = (list_sum (map g xs) + list_sum (map h xs))%nat).
    { intros g h xs. induction xs as [| x xs IHx]; simpl; [reflexivity | lia]. }
    rewrite S, IH by (intros b Hb; apply Hin; now right).
    rewrite counted_in_one_key; [reflexivity | exact Hnd | apply Hin; now left].
Qed.
End PartitionByKey.

Lemma filter_map_swap {A B : Type} (f : A -> B) (p : B -> bool) (l : list A) :
  filter p (map f l) = map f (filter (fun a => p (f a)) l).
Proof.
  induction l as [| a rest IH]; simpl; [reflexivity |].
  destruct (p (f a)); simpl; now rewrite IH.
Qed.

Lemma four_levels_total (group : list Summary) :
  Forall (fun s => In (risk_level s) risk_levels) group ->
  List.length group
  = (List.length (filter (fun s => String.eqb (risk_level s) "HIGH") group)
     + List.length (filter (fun s => String.eqb (risk_level s) "MEDIUM") group)
     + List.length (filter (fun s => String.eqb (risk_level s) "LOW") group)
     + List.length (filter (fun s => String.eqb (risk_level s) "NO RISK") group))%nat.
Proof.
  induction 1 as [| s rest Hs _ IH]; simpl; [reflexivity |].
  destruct Hs as [E | [E | [E | [E | []]]]]; rewrite <- E; simpl; lia.
Qed.

Lemma not_no_risk_total (group : list Summary) :
  Forall (fun s => In (risk_level s) risk_levels) group ->
  List.length (filter (fun s => negb (String.eqb (risk_level s) "NO RISK")) group)
  = (List.length (filter (fun s => String.eqb (risk_level s) "HIGH") group)
     + List.length (filter (fun s => String.eqb (risk_level s) "MEDIUM") group)
     + List.length (filter (fun s => String.eqb (risk_level s) "LOW") group))%nat.
Proof.
  induction 1 as [| s rest Hs _ IH]; simpl; [reflexivity |].
  destruct Hs as [E | [E | [E | [E | []]]]]; rewrite <- E; simpl; lia.
Qed.

(** The levels and the scores of the summaries of the analysis. *)
Lemma analyze_data_levels (df df' : DataFrame) (results : list Summary) :
  analyze_data df = Ok (df', results) ->
  Forall
    (fun s =>
       In (risk_level s) risk_levels /\
       Pandas.Qltb 0 (risk_score s) = negb (String.eqb (risk_level s) "NO RISK"))
    results.
Proof.
  intros H. apply analyze_data_scores in H.
  eapply Forall2_Forall_r; [| exact H]. clear.
  intros e s (crit & _ & H0 & _ & Hs & Hl).
  split; [rewrite Hl; apply assign_risk_level_label |].
  assert (N : 0 <= risk_score s).
  { rewrite Hs. apply compute_risk_score_nonneg; [exact H0 |].
    destruct (peak_hour_risk_binary (peak_hour s) crit) as [-> | ->]; lia. }
  rewrite Hl. unfold assign_risk_level.
  destruct (Qeq_bool (risk_score s) 0) eqn:E0.
  - apply Qeq_bool_iff in E0. simpl. apply Qltb_false. lra.
  - apply Qeq_bool_false in E0.
    assert (P : Pandas.Qltb 0 (risk_score s) = true).
    { apply Qltb_true. destruct (Qlt_le_dec 0 (risk_score s)) as [L | L]; [exact L |].
      exfalso. apply E0. lra. }
    rewrite P. destruct (Qle_bool (risk_score s) 0.30); [reflexivity |].
    destruct (Qle_bool (risk_score s) 0.60); reflexivity.
Qed.

(** X14.  The reports count every district once.  [analyze_data] writes one
    report for each (city, date) that has a summary; its total is the number
    of summaries of that city and date and is the sum of its high, medium
    and low counts and of the summaries at "NO RISK"; its critical alerts
    are the alerts of the summaries whose level is not "NO RISK", in the
    order of the results, as many as its high, medium and low counts
    together; and the totals of all reports add up to the number of
    summaries. *)
Theorem reports_count_every_district (format_1f : Q -> string)
    (df df' : DataFrame) (results : list Summary) :
  analyze_data df = Ok (df', results) ->
  let reports := map snd (report_files format_1f results) in
  Forall
    (fun r =>
       let group := summaries_of (report_city r, report_date r) results in
       group <> [] /\
       total_districts r = List.length group /\
       total_districts r
       = (high_risk_districts r + medium_risk_districts r + low_risk_districts r
          + List.length (filter (fun s => String.eqb (risk_level s) "NO RISK") group))%nat /\
       critical_alerts r
       = map (alert_of format_1f)
           (filter (fun s => negb (String.eqb (risk_level s) "NO RISK")) group) /\
       List.length (critical_alerts r)
       = (high_risk_districts r + medium_risk_districts r + low_risk_districts r)%nat)
    reports /\
  NoDup (map (fun r => (report_city r, report_date r)) reports) /\
  (forall s, In s results ->
     exists r, In r reports /\ (report_city r, report_date r) = report_key s) /\
  list_sum (map total_districts reports) = List.length results.
Proof.
  intros H. pose proof (analyze_data_levels _ _ _ H) as L. clear H.
  destruct (city_reports_entries format_1f results) as (Hnd & Hin & E).
  set (ks := map fst (city_reports format_1f results)) in *.
  simpl. unfold report_files. rewrite E, !map_map.
  assert (G : forall k, Forall (fun s => In (risk_level s) risk_levels
                                 /\ Pandas.Qltb 0 (risk_score s)
                                    = negb (String.eqb (risk_level s) "NO RISK"))
                          (summaries_of k results)).
  { intros k. rewrite Forall_forall in L. apply Forall_forall. intros s Hs.
    apply filter_In in Hs. apply L, Hs. }
  assert (C : forall level k,
             count_level level (map (alert_of format_1f) (summaries_of k results))
             = List.length (filter (fun s => String.eqb (risk_level s) level)
                              (summaries_of k results))).
  { intros level k. unfold count_level. rewrite filter_map_swap, length_map. reflexivity. }
  split; [| split; [| split]].
  - apply Forall_forall. intros r Hr. apply in_map_iff in Hr.
    destruct Hr as ([c d] & <- & Hk). simpl. rewrite !C, length_map.
    pose proof (G (c, d)) as Gk.
    assert (Gl : Forall (fun s => In (risk_level s) risk_levels) (summaries_of (c, d) results))
      by (eapply Forall_impl; [| exact Gk]; intros s [Hs _]; exact Hs).
    split.
    { apply Hin in Hk. destruct Hk as (s & Hs & Ek). intros Z.
      assert (Hm : In s (summaries_of (c, d) results)).
      { apply filter_In. split; [exact Hs |]. apply same_key_eq, Ek. }
      rewrite Z in Hm. contradiction. }
    split; [reflexivity |]. split; [apply four_levels_total, Gl |].
    assert (F : filter (fun d0 => Pandas.Qltb 0 (alert_risk_score d0))
                  (map (alert_of format_1f) (summaries_of (c, d) results))
                = map (alert_of format_1f)
                    (filter (fun s => negb (String.eqb (risk_level s) "NO RISK"))
                       (summaries_of (c, d) results))).
    { rewrite filter_map_swap. f_equal. apply filter_ext_in. intros s Hs. simpl.
      rewrite Forall_forall in Gk. apply Gk, Hs. }
    split; [exact F |]. rewrite F, length_map. apply not_no_risk_total, Gl.
  - rewrite (map_ext _ (fun k => k)); [rewrite map_id; exact Hnd |].
    intros [c d]. reflexivity.
  - intros s Hs.
    assert (Hk : In (report_key s) ks) by (apply Hin; eauto).
    eexists. split.
    + apply in_map_iff. exists (report_key s). split; [reflexivity | exact Hk].
    + destruct (report_key s). reflexivity.
  - rewrite (map_ext _ (fun k => List.length (filter (fun s => same_key (report_key s) k) results))).
    + apply (partition_by_key same_key report_key same_key_eq ks results Hnd).
      intros s Hs. apply Hin. eauto.
    + intros [c d]. simpl. apply length_map.
Qed.

Lemma reports_count_every_district_witness :
  analyze_data day_table = Ok (day_analyzed, day_results) /\
  list_sum (map total_districts (map snd (report_files format_1f_exact day_results)))
  = List.length day_results.
Proof.
  assert (H : analyze_data day_table = Ok (day_analyzed, day_results))
    by (vm_compute; reflexivity).
  exact (conj H (proj2 (proj2 (proj2
    (reports_count_every_district format_1f_exact _ _ _ H))))).
Defined.

(** The report of the day table: two districts, one at "MEDIUM" with its
    alert, one at "NO RISK" without. *)
Example day_report :
  map (fun f =>
         (fst f, total_districts (snd f), high_risk_districts (snd f),
          medium_risk_districts (snd f), low_risk_districts (snd f),
          map (fun a => (alert_district_id a, avg_percent_of_violations a, alert_risk_level a))
            (critical_alerts (snd f))))
    (report_files format_1f_exact day_results)
  = [("City1_2025-09-10_report.json", 2%nat, 0%nat, 1%nat, 0%nat,
      [("101", "33.3%", "MEDIUM")])].
Proof. reflexivity. Qed.

(** ** File names *)

Lemma length_append (a b : string) :
  String.length (a ++ b) = (String.length a + String.length b)%nat.
Proof. induction a as [| c a IH]; simpl; [reflexivity | now rewrite IH]. Qed.

Lemma append_inj_length (a b x y : string) :
  String.length a = String.length b -> a ++ x = b ++ y -> a = b /\ x = y.
Proof.
  revert b. induction a as [| c a IH]; intros [| c' b] L E; simpl in *;
    try discriminate; [auto |].
  injection E as -> E. injection L as L.
  destruct (IH b L E) as [-> ->]. auto.
Qed.

Lemma append_inj_suffix (a b suffix : string) :
  a ++ suffix = b ++ suffix -> a = b.
Proof.
  intros E. apply (append_inj_length a b suffix suffix); [| exact E].
  apply (f_equal String.length) in E. rewrite !length_append in E. lia.
Qed.

Lemma get_some_lt (n : nat) (s : string) (c : ascii) :
  String.get n s = Some c -> (n < String.length s)%nat.
Proof.
  revert n. induction s as [| x s IH]; intros [| n] H; simpl in *;
    try discriminate; [lia |].
  apply IH in H. lia.
Qed.

Lemma substring_prefix_length (n : nat) (s : string) :
  (n <= String.length s)%nat -> String.length (substring 0 n s) = n.
Proof.
  revert s. induction n as [| n IH]; intros [| c s] H; simpl in *;
    try reflexivity; [lia |].
  rewrite IH by lia. reflexivity.
Qed.

Lemma hour_of_length (ts : string) (h : nat) :
  hour_of ts = Ok h -> String.length (substring 0 10 ts) = 10%nat.
Proof.
  unfold hour_of. destruct (String.get 11 ts) eqn:E; [| discriminate].
  intros _. apply get_some_lt in E. apply substring_prefix_length. lia.
Qed.

Lemma NoDup_map_injective {A B : Type} (f : A -> B) (l : list A) :
  (forall a b, f a = f b -> a = b) -> NoDup l -> NoDup (map f l).
Proof.
  intros Hf. induction 1 as [| a rest Hn _ IH]; simpl; constructor; [| exact IH].
  intros Hm. apply in_map_iff in Hm. destruct Hm as (b & E & Hb).
  apply Hf in E. subst. contradiction.
Qed.

(** The key columns of the results: the keys of the rows, each once. *)
Lemma analyze_data_keys (df df' : DataFrame) (results : list Summary) :
  analyze_data df = Ok (df', results) ->
  map summary_key results = Pandas.sorted_keys key_compare (map group_key (rows df)).
Proof.
  intros H. apply analyze_data_ok in H. destruct H as (hs & _ & Edf & _ & H).
  assert (Er : rows df' = rows df) by (rewrite Edf; reflexivity).
  rewrite <- Er. transitivity (map fst (groupby_key df')).
  - symmetry. apply Forall2_map_eq. eapply Forall2_impl; [| exact H].
    intros [k g] s Hs. apply summarize_ok in Hs.
    destruct Hs as (? & ? & ? & ? & _ & _ & _ & _ & Hk & _). simpl. now rewrite <- Hk.
  - unfold groupby_key. rewrite map_map. simpl. apply map_id.
Qed.

(** X15.  The summary files hold every summary once.  [analyze_data] writes
    one summary file for each city of the results, named after the city; the
    file of a city holds the summaries of that city in the order of the
    results; no two files have the same name, and the rows of all files add
    up to the number of summaries. *)
Theorem summary_files_hold_every_summary (results : list Summary) :
  Forall
    (fun f =>
       exists city,
         fst f = city ++ "_summary.csv" /\
         snd f = filter (fun s => String.eqb (res_city s) city) results /\
         snd f <> [])
    (summary_files results) /\
  NoDup (map fst (summary_files results)) /\
  (forall s, In s results ->
     exists f, In f (summary_files results) /\
               fst f = res_city s ++ "_summary.csv" /\ In s (snd f)) /\
  list_sum (map (fun f => List.length (snd f)) (summary_files results))
  = List.length results.
Proof.
  set (cities := Pandas.sorted_keys String.compare (map res_city results)).
  assert (Nd : NoDup cities).
  { apply (sorted_no_dup String.compare string_compare_refl).
    apply (sorted_keys_sorted String.compare String.compare_antisym string_compare_trans). }
  assert (E : summary_files results
              = map (fun c => (c ++ "_summary.csv",
                               filter (fun s => String.eqb (res_city s) c) results)) cities).
  { unfold summary_files, Pandas.groupby. rewrite map_map. apply map_ext. intros c.
    simpl. f_equal. apply filter_ext. intros s. apply string_key_eqb. }
  assert (Hc : forall s, In s results -> In (res_city s) cities).
  { intros s Hs.
    apply (sorted_keys_in String.compare String.compare_eq_iff string_compare_refl).
    apply in_map, Hs. }
  rewrite E. split; [| split; [| split]].
  - apply Forall_forall. intros f Hf. apply in_map_iff in Hf.
    destruct Hf as (c & <- & Hin). exists c. simpl. repeat split.
    apply sorted_keys_incl, in_map_iff in Hin. destruct Hin as (s & Es & Hs).
    intros Z.
    assert (Hm : In s (filter (fun s0 => String.eqb (res_city s0) c) results)).
    { apply filter_In. split; [exact Hs |]. apply String.eqb_eq, Es. }
    rewrite Z in Hm. contradiction.
  - rewrite map_map. simpl.
    apply NoDup_map_injective; [| exact Nd].
    intros a b. apply append_inj_suffix.
  - intros s Hs. eexists. split.
    + apply in_map_iff. exists (res_city s). split; [reflexivity | apply Hc, Hs].
    + simpl. split; [reflexivity |]. apply filter_In. split; [exact Hs |].
      apply String.eqb_refl.
  - rewrite map_map. simpl.
    apply (partition_by_key String.eqb res_city String.eqb_eq cities results Nd Hc).
Qed.

Example day_summary_files :
  map (fun f => (fst f, map res_district_id (snd f))) (summary_files day_results)
  = [("City1_summary.csv", ["101"; "102"])].
Proof. reflexivity. Qed.

Lemma report_name_injective (c1 d1 c2 d2 : string) :
  String.length d1 = String.length d2 ->
  c1 ++ "_" ++ d1 ++ "_report.json" = c2 ++ "_" ++ d2 ++ "_report.json" ->
  c1 = c2 /\ d1 = d2.
Proof.
  intros L E.
  assert (Lc : String.length c1 = String.length c2).
  { apply (f_equal String.length) in E. rewrite !length_append in E. simpl in E. lia. }
  destruct (append_inj_length _ _ _ _ Lc E) as [-> E'].
  injection E' as E'.
  destruct (append_inj_length _ _ _ _ L E') as [-> _]. auto.
Qed.

(** X16.  No report overwrites another.  The date of every summary of
    [analyze_data] has ten characters, and the names of the report files it
    writes are pairwise different. *)
Theorem report_files_have_distinct_names (format_1f : Q -> string)
    (df df' : DataFrame) (results : list Summary) :
  analyze_data df = Ok (df', results) ->
  Forall (fun s => String.length (res_date s) = 10%nat) results /\
  NoDup (map fst (report_files format_1f results)).
Proof.
  intros H.
  assert (D : Forall (fun s => String.length (res_date s) = 10%nat) results).
  { pose proof H as H0. apply analyze_data_ok in H0.
    destruct H0 as (hs & Hhs & Edf & _ & _).
    assert (Er : rows df' = rows df) by (rewrite Edf; reflexivity).
    pose proof (analyze_data_keys df df' results H) as K.
    apply Forall_forall. intros s Hs.
    assert (Hk : In (summary_key s) (map summary_key results)) by (apply in_map, Hs).
    rewrite K in Hk. apply sorted_keys_incl, in_map_iff in Hk.
    destruct Hk as (r & Ek & Hr).
    unfold summary_key, group_key in Ek. injection Ek as _ _ <-.
    apply for_each_ok in Hhs.
    assert (P : forall ts, In ts (map timestamp (rows df)) ->
                           exists h, hour_of ts = Ok h).
    { clear -Hhs. induction Hhs as [| ts h tss hs' Hh _ IH]; intros t [].
      - subst. eauto.
      - auto. }
    destruct (P (timestamp r) (in_map _ _ _ Hr)) as (h & Hh).
    eapply hour_of_length, Hh. }
  split; [exact D |].
  destruct (city_reports_entries format_1f results) as (Hnd & Hin & _).
  assert (N : map fst (report_files format_1f results)
              = map (fun k => fst k ++ "_" ++ snd k ++ "_report.json")
                  (map fst (city_reports format_1f results))).
  { unfold report_files. rewrite !map_map. apply map_ext.
    intros [[c d] alerts]. reflexivity. }
  rewrite N. clear N.
  set (ks := map fst (city_reports format_1f results)) in *.
  assert (Hd : forall k, In k ks -> String.length (snd k) = 10%nat).
  { intros k Hk. apply Hin in Hk. destruct Hk as (s & Hs & <-).
    rewrite Forall_forall in D. apply D, Hs. }
  clear Hin. induction ks as [| [c d] ks IH]; simpl; [constructor |].
  apply NoDup_cons_iff in Hnd. destruct Hnd as [Hn Hnd].
  constructor.
  - intros Hm. apply in_map_iff in Hm. destruct Hm as ([c' d'] & Em & Hk').
    simpl in Em.
    destruct (report_name_injective c' d' c d) as [-> ->]; [| exact Em | contradiction].
    pose proof (Hd (c', d') (or_intror Hk')) as L1.
    pose proof (Hd (c, d) (or_introl eq_refl)) as L2.
    simpl in L1, L2. congruence.
  - apply IH; [exact Hnd |]. intros k Hk. apply Hd. now right.
Qed.

Lemma report_files_have_distinct_names_witness :
  analyze_data day_table = Ok (day_analyzed, day_results) /\
  NoDup (map fst (report_files format_1f_exact day_results)).
Proof.
  assert (H : analyze_data day_table = Ok (day_analyzed, day_results))
    by (vm_compute; reflexivity).
  exact (conj H (proj2 (report_files_have_distinct_names format_1f_exact _ _ _ H))).
Defined.
